(** * cinemai: the intent dispatcher, the session store and the driver loop

    A shallow embedding of [src/utils/response_handler.py] and of the
    conversation driver of [src/cinemai.py].  Python strings are
    [string], the process-wide dict [_SESSION_STORE] is a [gmap] from
    session ids to object references, and the [ChatMessageHistory]
    objects live in a heap indexed by those references, so that two
    lookups of one id can be compared for object identity.  Code that
    raises returns a [result]; the driver threads the interpreter state
    and the raised exception through every call. *)

From stdpp Require Import gmap strings list fin_maps.
From Stdlib Require Import Ascii Lia.

Local Open Scope string_scope.

(** ** Python exceptions *)

(** Instances of Python's [Exception] class that the modelled code can
    raise or receive from a service. *)
Inductive exception : Type :=
  | ValueError
  | IndexError
  | KeyError
  | TypeError
  | EOFError
  | OtherException (name : string).

(** [BaseException]: the [Exception] instances and [KeyboardInterrupt],
    which is not an instance of [Exception]. *)
Inductive base_exception : Type :=
  | Exc (e : exception)
  | KeyboardInterrupt.

Inductive result (A : Type) : Type :=
  | Ok (a : A)
  | Raise (e : base_exception).

Arguments Ok {A} a.
Arguments Raise {A} e.

Definition is_ValueError (e : base_exception) : bool :=
  match e with Exc ValueError => true | _ => false end.

Definition is_Exception (e : base_exception) : bool :=
  match e with Exc _ => true | KeyboardInterrupt => false end.

Definition is_KeyboardInterrupt (e : base_exception) : bool :=
  match e with KeyboardInterrupt => true | Exc _ => false end.

Definition result_bind {A B} (r : result A) (k : A -> result B) : result B :=
  match r with
  | Ok a => k a
  | Raise e => Raise e
  end.

(** [try: r except <class>: h], for a handler that does not use the
    caught exception's value beyond its class. *)
Definition try_except {A} (r : result A) (catches : base_exception -> bool)
    (h : base_exception -> result A) : result A :=
  match r with
  | Ok a => Ok a
  | Raise e => if catches e then h e else Raise e
  end.

(** ** Python string operations used by the driver *)

(** A Python [str] is represented by its UTF-8 encoding: a character
    (a code point) is one byte, or a lead byte followed by its
    continuation bytes. *)

(** [s[i]] where the characters of [s] up to index [i] are ASCII, as
    in the alphabet of the session ids, and for [i = 0] the first byte:
    it is one of the ASCII codes exactly when the first character is.
    [IndexError] out of range. *)
Definition str_getitem (s : string) (i : nat) : result string :=
  match String.get i s with
  | Some c => Ok (String c EmptyString)
  | None => Raise (Exc IndexError)
  end.

(** A continuation byte of UTF-8: [10xxxxxx]. *)
Definition is_continuation (c : ascii) : bool :=
  let n := nat_of_ascii c in
  Nat.leb 128 n && Nat.ltb n 192.

Definition starts_with_continuation (s : string) : bool :=
  match s with
  | String c _ => is_continuation c
  | EmptyString => false
  end.

(** [list(s)]: the characters of [s] in order, each with all its
    bytes: a continuation byte belongs to the character of the byte
    before it, every other byte opens a character. *)
Fixpoint characters (s : string) : list string :=
  match s with
  | EmptyString => []
  | String c s' =>
      match characters s' with
      | g :: gs =>
          if starts_with_continuation s' then String c g :: gs
          else String c EmptyString :: g :: gs
      | [] => [String c EmptyString]
      end
  end.

(** [len(s)]: the number of characters. *)
Definition py_len (s : string) : nat := length (characters s).

(** ** [utils/response_handler.py] *)

Module ResponseTypes.

Inductive t : Type := QUERY | MEMORY | FEEDBACK | INVALID.

Definition value (x : t) : string :=
  match x with
  | QUERY => "Q"
  | MEMORY => "M"
  | FEEDBACK => "F"
  | INVALID => "I"
  end.

(** [ResponseTypes(v)]: the member whose value is [v], [ValueError]
    when there is none. *)
Definition call (v : string) : result t :=
  if String.eqb v "Q" then Ok QUERY
  else if String.eqb v "M" then Ok MEMORY
  else if String.eqb v "F" then Ok FEEDBACK
  else if String.eqb v "I" then Ok INVALID
  else Raise (Exc ValueError).

Definition eqb (x y : t) : bool :=
  match x, y with
  | QUERY, QUERY | MEMORY, MEMORY | FEEDBACK, FEEDBACK | INVALID, INVALID => true
  | _, _ => false
  end.

End ResponseTypes.

(** The four handler classes; an object of one of them has no state
    besides its [type_]. *)
Inductive ResponseHandler : Type :=
  | QueryResponseHandler
  | MemoryResponseHandler
  | FeedbackResponseHandler
  | InvalidResponseHandler.

Definition type_ (h : ResponseHandler) : ResponseTypes.t :=
  match h with
  | QueryResponseHandler => ResponseTypes.QUERY
  | MemoryResponseHandler => ResponseTypes.MEMORY
  | FeedbackResponseHandler => ResponseTypes.FEEDBACK
  | InvalidResponseHandler => ResponseTypes.INVALID
  end.

(** A Python dict with string keys and string values, as the graph
    chain returns it and as the driver builds it on failure. *)
Abbreviation pydict := (gmap string string).

(** The values that reach [get_context] through [*args]. *)
Inductive pyobject : Type :=
  | PyNone
  | PyStr (s : string)
  | PyDict (d : pydict).

(** [o['result']] for an argument [o]. *)
Definition obj_getitem (o : pyobject) (key : string) : result string :=
  match o with
  | PyDict d =>
      match d !! key with
      | Some v => Ok v
      | None => Raise (Exc KeyError)
      end
  | PyStr _ => Raise (Exc TypeError)
  | PyNone => Raise (Exc TypeError)
  end.

(** [args[0]] on the argument tuple. *)
Definition args_getitem0 (args : list pyobject) : result pyobject :=
  match args with
  | o :: _ => Ok o
  | [] => Raise (Exc IndexError)
  end.

Definition get_context (h : ResponseHandler) (args : list pyobject) : result string :=
  match h with
  | QueryResponseHandler =>
      result_bind (args_getitem0 args) (fun a0 =>
      result_bind (obj_getitem a0 "result") (fun r =>
      Ok ("Context: database response was " +:+ r)))
  | MemoryResponseHandler => Ok "Context: respond using memory history."
  | FeedbackResponseHandler => Ok "Context: user provided feedback."
  | InvalidResponseHandler => Ok "Context: user provided invalid query."
  end.

Module ResponseHandlerFactory.

Definition create_response_handler (ty : ResponseTypes.t) : ResponseHandler :=
  if ResponseTypes.eqb ty ResponseTypes.QUERY then QueryResponseHandler
  else if ResponseTypes.eqb ty ResponseTypes.MEMORY then MemoryResponseHandler
  else if ResponseTypes.eqb ty ResponseTypes.FEEDBACK then FeedbackResponseHandler
  else if ResponseTypes.eqb ty ResponseTypes.INVALID then InvalidResponseHandler
  else InvalidResponseHandler.

End ResponseHandlerFactory.

(** ** [cinemai.py]: selecting the handler (lines 234-242) *)

Definition select_handler (content : string) : result ResponseHandler :=
  try_except
    (result_bind (str_getitem content 0) (fun c =>
     result_bind (ResponseTypes.call c) (fun ty =>
     Ok (ResponseHandlerFactory.create_response_handler ty))))
    is_ValueError
    (fun _ => Ok (ResponseHandlerFactory.create_response_handler ResponseTypes.INVALID)).

(** ** The interpreter state *)

Inductive role : Type := human | ai.

Record message : Type := Message { msg_role : role; msg_content : string }.

(** References to [ChatMessageHistory] objects. *)
Abbreviation loc := positive.

(** What the process does to the outside world, in order. *)
Inductive event : Type :=
  | LlmCall (session_id : string) (history : list message) (question : string)
  | BackendCall (question : string)
  | ConsolePrint (text : string)
  | FileOpen (name : string)                            (* open(name, "w") *)
  | FileDump (name : string) (messages : list message). (* json.dump into it *)

Record interp : Type := Interp {
  session_store : gmap string loc;      (* _SESSION_STORE *)
  heap : gmap loc (list message);       (* the .messages of each history object *)
  trace : list event
}.

Definition initial_interp : interp :=
  {| session_store := ∅; heap := ∅; trace := [] |}.

(** Computations that read and write the interpreter state and may
    raise; the state changes made before a raise are kept. *)
Definition M (A : Type) : Type := interp -> result A * interp.

Definition ret {A} (a : A) : M A := fun σ => (Ok a, σ).

Definition bind {A B} (m : M A) (k : A -> M B) : M B :=
  fun σ =>
    match m σ with
    | (Ok a, σ') => k a σ'
    | (Raise e, σ') => (Raise e, σ')
    end.

Definition lift {A} (r : result A) : M A := fun σ => (r, σ).

Definition try_except_M {A} (m : M A) (catches : base_exception -> bool)
    (h : base_exception -> M A) : M A :=
  fun σ =>
    match m σ with
    | (Ok a, σ') => (Ok a, σ')
    | (Raise e, σ') => if catches e then h e σ' else (Raise e, σ')
    end.

Declare Scope py_scope.
Delimit Scope py_scope with py.
Notation "x <- c ;; k" := (bind c (fun x => k))
  (at level 100, c at next level, right associativity) : py_scope.
Notation "c ;;; k" := (bind c (fun _ => k))
  (at level 100, right associativity) : py_scope.
Local Open Scope py_scope.

Definition emit (e : event) : M unit :=
  fun σ => (Ok tt, {| session_store := session_store σ; heap := heap σ;
                      trace := (trace σ ++ [e])%list |}).

Definition get_trace : M (list event) := fun σ => (Ok (trace σ), σ).

(** *** The session store *)

(** [session_id in _SESSION_STORE] *)
Definition store_contains (session_id : string) : M bool :=
  fun σ => (Ok (bool_decide (is_Some (session_store σ !! session_id))), σ).

(** [_SESSION_STORE[session_id]], [KeyError] for a missing key. *)
Definition store_getitem (session_id : string) : M loc :=
  fun σ =>
    match session_store σ !! session_id with
    | Some l => (Ok l, σ)
    | None => (Raise (Exc KeyError), σ)
    end.

(** [_SESSION_STORE[session_id] = l] *)
Definition store_setitem (session_id : string) (l : loc) : M unit :=
  fun σ => (Ok tt, {| session_store := <[session_id := l]> (session_store σ);
                      heap := heap σ; trace := trace σ |}).

(** [ChatMessageHistory()]: a new object with no messages. *)
Definition new_ChatMessageHistory : M loc :=
  fun σ =>
    let l := fresh (dom (heap σ)) in
    (Ok l, {| session_store := session_store σ; heap := <[l := []]> (heap σ);
              trace := trace σ |}).

(** [h.messages] of the object at [l]. *)
Definition messages_of (σ : interp) (l : loc) : list message :=
  default [] (heap σ !! l).

Definition read_messages (l : loc) : M (list message) :=
  fun σ => (Ok (messages_of σ l), σ).

(** [h.add_message(m)]: appends in place to the object at [l]. *)
Definition add_message (l : loc) (m : message) : M unit :=
  fun σ => (Ok tt, {| session_store := session_store σ;
                      heap := alter (fun ms => (ms ++ [m])%list) l (heap σ);
                      trace := trace σ |}).

Fixpoint add_messages (l : loc) (ms : list message) : M unit :=
  match ms with
  | [] => ret tt
  | m :: ms' => add_message l m ;;; add_messages l ms'
  end.

(** [cinemai.py], lines 143-156. *)
Definition get_session_history (session_id : string) : M loc :=
  present <- store_contains session_id ;;
  (if negb present
   then (l <- new_ChatMessageHistory ;; store_setitem session_id l)
   else ret tt) ;;;
  store_getitem session_id.

(** ** [generate_session_id] (lines 50-59) *)

Definition ascii_letters : string :=
  "abcdefghijklmnopqrstuvwxyzABCDEFGHIJKLMNOPQRSTUVWXYZ".

Definition digits : string := "0123456789".

(** One value of [random.random()]: the fraction
    [numer / (numer + below_one + 1)], which ranges over the rationals
    of the half-open interval from 0 to 1. *)
Record draw : Type := Draw { numer : nat; below_one : nat }.

(** [floor(random() * n)], the product taken exactly. *)
Definition floor_scaled (u : draw) (n : nat) : nat :=
  Nat.div (numer u * n) (numer u + below_one u + 1).

(** [random.choices(population, k=k)] without weights:
    [[population[floor(random() * n)] for i in repeat(None, k)]], the
    [i]-th call of [random()] returning [rnd i]. *)
Fixpoint random_choices (population : string) (rnd : nat -> draw) (i k : nat)
    : result (list string) :=
  match k with
  | O => Ok []
  | S k' =>
      result_bind
        (str_getitem population (floor_scaled (rnd i) (String.length population)))
        (fun c =>
      result_bind (random_choices population rnd (S i) k') (fun cs =>
      Ok (c :: cs)))
  end.

(** ["".join(parts)] *)
Definition str_join_empty (parts : list string) : string :=
  fold_right String.append "" parts.

Definition generate_session_id (length : nat) (rnd : nat -> draw) : result string :=
  result_bind (random_choices (ascii_letters +:+ digits) rnd 0 length) (fun cs =>
  Ok (str_join_empty cs)).

(** ** The conversation driver ([main], lines 179-278) *)

(** The model of [main] starts where the session id is generated
    (line 212).  The set-up before it (lines 195-210: the graph
    connection, the chains, the reading of [prompts/system.md]) is not
    part of it; what is proved of [main] below is proved of a run from
    line 212 on. *)

Inductive console_input : Type :=
  | Line (text : string)     (* Prompt.ask returns the typed line *)
  | CtrlC.                   (* Prompt.ask raises KeyboardInterrupt *)

(** How [main] ends: it returns, or an exception leaves it. *)
Inductive outcome : Type :=
  | Returned
  | Uncaught (e : base_exception).

Definition apology : string := "I'm sorry, I couldn't find any results.".

Definition answer_instruction : string :=
  "Using the context, respond to following query (remember to incorporate any and all past feedback):".

(** [s[n:]]: the characters from index [n] on, none past the end. *)
Definition py_slice_from (n : nat) (s : string) : string :=
  str_join_empty (drop n (characters s)).

(** [content[3:] if len(content) > 3 else ""] (line 247) *)
Definition additional_info_of (content : string) : string :=
  if Nat.ltb 3 (py_len content) then py_slice_from 3 content else "".

Section Driver.

(** The [--model] option, used in the assistant's printed name. *)
Variable model : string.

(** The completion of the language model for a history and a question;
    the events so far stand for whatever else the service depends on. *)
Variable llm : list event -> list message -> string -> string.

(** [cypher_chain.invoke(question)]: a dict, or a raised exception. *)
Variable cypher_chain : list event -> string -> result pydict.

(** Modelled from the spec: the history-aware call wrapper
    ([RunnableWithMessageHistory], a library class built at lines
    204-210).  It fetches the session's history object through
    [get_session_history], calls the model with the history and the
    question, and appends the question and the answer to that object. *)
Definition chain_with_history_invoke (session_id question : string) : M string :=
  l <- get_session_history session_id ;;
  history <- read_messages l ;;
  tr <- get_trace ;;
  emit (LlmCall session_id history question) ;;;
  let content := llm tr history question in
  add_messages l [Message human question; Message ai content] ;;;
  ret content.

Definition cypher_chain_invoke (question : string) : M pydict :=
  tr <- get_trace ;;
  emit (BackendCall question) ;;;
  lift (cypher_chain tr question).

(** Lines 244-254. *)
Definition resolve_context (response_handler : ResponseHandler)
    (content user_query : string) : M string :=
  if ResponseTypes.eqb (type_ response_handler) ResponseTypes.QUERY then
    db_response <-
      try_except_M
        (let additional_info := additional_info_of content in
         cypher_chain_invoke (additional_info +:+ " " +:+ user_query))
        is_Exception
        (fun _ => ret ({[ "result" := apology ]} : pydict)) ;;
    lift (get_context response_handler [PyDict db_response])
  else
    lift (get_context response_handler []).

Definition assistant_name : string := "Assistant(" +:+ model +:+ ")".

(** One pass through the body of the [while True] loop after the
    line has been read (lines 230-268). *)
Definition turn (session_id user_query : string) : M unit :=
  content <- chain_with_history_invoke session_id ("Classify query:" +:+ user_query) ;;
  response_handler <- lift (select_handler content) ;;
  context <- resolve_context response_handler content user_query ;;
  response <- chain_with_history_invoke session_id
                (context +:+ answer_instruction +:+ user_query) ;;
  emit (ConsolePrint (assistant_name +:+ ":" +:+ response)).

(** The loop ends only by an exception: the one a turn lets through,
    [KeyboardInterrupt] at the prompt, or [EOFError] when the input
    is exhausted. *)
Fixpoint main_loop (session_id : string) (inputs : list console_input)
    (σ : interp) : base_exception * interp :=
  match inputs with
  | [] => (Exc EOFError, σ)
  | CtrlC :: _ => (KeyboardInterrupt, σ)
  | Line user_query :: rest =>
      match turn session_id user_query σ with
      | (Ok _, σ') => main_loop session_id rest σ'
      | (Raise e, σ') => (e, σ')
      end
  end.

(** Lines 274-278: the file is opened, then the store is indexed. *)
Definition dump_memory (session_id : string) : M unit :=
  let name := "memory-" +:+ session_id +:+ ".json" in
  emit (FileOpen name) ;;;
  l <- store_getitem session_id ;;
  ms <- read_messages l ;;
  emit (FileDump name ms).

Definition greeting : string :=
  assistant_name +:+
  ": Hey! I'm your personal movie assistant, how can I help you? (to exit, press Ctrl+C)".

Definition feedback_hint : string :=
  "(feel free to give me feedback whenever the responses don't meet your expectations!)".

Definition outro_text : string := "Leaving so soon? See ya next time!".

Definition on_interrupt (dump_memory_on_exit : bool) (session_id : string) : M unit :=
  emit (ConsolePrint outro_text) ;;;
  if dump_memory_on_exit then dump_memory session_id else ret tt.

(** The state when the loop is entered: nothing stored, the two
    greeting lines printed (lines 216-224). *)
Definition startup : interp :=
  snd ((emit (ConsolePrint greeting) ;;; emit (ConsolePrint feedback_hint))
         initial_interp).

Definition main (dump_memory_on_exit : bool) (rnd : nat -> draw)
    (inputs : list console_input) : outcome * interp :=
  match generate_session_id 6 rnd with
  | Raise e => (Uncaught e, initial_interp)
  | Ok session_id =>
      let '(e, σ) := main_loop session_id inputs startup in
      if is_KeyboardInterrupt e then
        match on_interrupt dump_memory_on_exit session_id σ with
        | (Ok _, σ') => (Returned, σ')
        | (Raise e', σ') => (Uncaught e', σ')
        end
      else (Uncaught e, σ)
  end.

End Driver.

(** ** Vocabulary of the statements *)

Definition is_LlmCall (ev : event) : bool :=
  match ev with LlmCall _ _ _ => true | _ => false end.

(** The number of language-model calls made so far. *)
Definition llm_calls (tr : list event) : nat := length (filter is_LlmCall tr).

(** The questions sent to the graph backend so far, in order. *)
Definition backend_questions (tr : list event) : list string :=
  omap (fun ev => match ev with BackendCall q => Some q | _ => None end) tr.

(** The history a session id stands for: the messages of the object
    the store holds for it, nothing when it holds none. *)
Definition session_messages (σ : interp) (session_id : string) : list message :=
  match session_store σ !! session_id with
  | Some l => messages_of σ l
  | None => []
  end.

(** What the rest of the process may do to the store between two
    lookups: look up any id, append to any history object. *)
Inductive store_op : Type :=
  | OpGet (session_id : string)
  | OpAppend (l : loc) (m : message).

Definition run_op (o : store_op) : M unit :=
  match o with
  | OpGet session_id => (get_session_history session_id ;;; ret tt)%py
  | OpAppend l m => add_message l m
  end.

Fixpoint run_ops (ops : list store_op) (σ : interp) : interp :=
  match ops with
  | [] => σ
  | o :: ops' => run_ops ops' (snd (run_op o σ))
  end.

(** The messages that [ops] appends to the object at [l], in order. *)
Fixpoint appended_to (l : loc) (ops : list store_op) : list message :=
  match ops with
  | [] => []
  | OpAppend l' m :: ops' =>
      if Pos.eqb l' l then m :: appended_to l ops' else appended_to l ops'
  | OpGet _ :: ops' => appended_to l ops'
  end.

(** ASCII letter or digit, by character code. *)
Definition is_ascii_alnum (c : ascii) : bool :=
  let n := nat_of_ascii c in
  (Nat.leb 48 n && Nat.leb n 57)
  || (Nat.leb 65 n && Nat.leb n 90)
  || (Nat.leb 97 n && Nat.leb n 122).

Fixpoint string_forallb (p : ascii -> bool) (s : string) : bool :=
  match s with
  | EmptyString => true
  | String c s' => p c && string_forallb p s'
  end.

(** The state with one more event in its trace. *)
Definition logged (σ : interp) (ev : event) : interp :=
  {| session_store := session_store σ; heap := heap σ;
     trace := (trace σ ++ [ev])%list |}.

(** Sample services for the concrete runs below: a model that
    answers every classification question with [classification] and
    every other question with ["answer"], a backend that fails, and
    one that succeeds. *)
Definition sample_llm (classification : string)
    (tr : list event) (history : list message) (question : string) : string :=
  if String.prefix "Classify query:" question then classification else "answer".

Definition failing_backend (tr : list event) (question : string) : result pydict :=
  Raise (Exc (OtherException "Neo4jError")).

Definition answering_backend (tr : list event) (question : string) : result pydict :=
  Ok {[ "query" := question; "result" := "Keanu Reeves" ]}.

(** An event that, if it is a model call, is made for [session_id]. *)
Definition uses_session (session_id : string) (ev : event) : Prop :=
  match ev with
  | LlmCall s _ _ => s = session_id
  | _ => True
  end.

Definition dump_file_name (session_id : string) : string :=
  "memory-" +:+ session_id +:+ ".json".

(** What one model call adds to the session's history: the question
    as a human message, then the completion as an ai message. *)
Definition exchange (llm : list event -> list message -> string -> string)
    (seen : list event) (ev : event) : list message :=
  match ev with
  | LlmCall _ history question =>
      [Message human question; Message ai (llm seen history question)]
  | _ => []
  end.

(** The history that the model calls of [tr] build up, [seen] being
    the events before [tr]. *)
Fixpoint replay_from (llm : list event -> list message -> string -> string)
    (seen tr : list event) : list message :=
  match tr with
  | [] => []
  | ev :: tr' => (exchange llm seen ev ++ replay_from llm (seen ++ [ev]) tr')%list
  end.

Definition replay (llm : list event -> list message -> string -> string)
    (tr : list event) : list message :=
  replay_from llm [] tr.

Definition is_file_event (ev : event) : bool :=
  match ev with
  | FileOpen _ | FileDump _ _ => true
  | _ => false
  end.

(** The store of a run for [session_id]: nothing yet, or that one id
    bound to the one history object, which holds the replayed history. *)
Definition single_session (llm : list event -> list message -> string -> string)
    (session_id : string) (σ : interp) : Prop :=
  (session_store σ = ∅ /\ heap σ = ∅ /\ replay llm (trace σ) = [])
  \/ (exists l : loc,
        session_store σ = {[ session_id := l ]}
        /\ heap σ = {[ l := replay llm (trace σ) ]}).

(** Every model call of [tr] is made for [session_id] and is given
    the history replayed from the events before it. *)
Definition calls_ok (llm : list event -> list message -> string -> string)
    (session_id : string) (tr : list event) : Prop :=
  forall (tr0 tr1 : list event) (s : string) (history : list message)
         (question : string),
    tr = (tr0 ++ LlmCall s history question :: tr1)%list ->
    s = session_id /\ history = replay llm tr0.

(** Every stored reference points to an object, and no object is
    stored under two ids. *)
Definition store_wf (σ : interp) : Prop :=
  (forall (s : string) (l : loc),
      session_store σ !! s = Some l -> is_Some (heap σ !! l))
  /\ (forall (s1 s2 : string) (l : loc),
        session_store σ !! s1 = Some l -> session_store σ !! s2 = Some l -> s1 = s2).

(** What holds of the state all through the loop of a run. *)
Definition run_inv (llm : list event -> list message -> string -> string)
    (session_id : string) (σ : interp) : Prop :=
  single_session llm session_id σ
  /\ calls_ok llm session_id (trace σ)
  /\ Forall (fun ev => is_file_event ev = false) (trace σ).

(** A backend call during which the user presses Ctrl+C, and one that
    returns a dict without a ["result"] entry. *)
Definition interrupted_backend (tr : list event) (question : string) : result pydict :=
  Raise KeyboardInterrupt.

Definition keyless_backend (tr : list event) (question : string) : result pydict :=
  Ok {[ "query" := question ]}.

(** * Properties *)

(** ** Handler selection on sample outputs *)

Example select_handler_Q : select_handler "Q  The Matrix" = Ok QueryResponseHandler.
Proof. reflexivity. Qed.

Example select_handler_typo : select_handler "X" = Ok InvalidResponseHandler.
Proof. reflexivity. Qed.

Example select_handler_empty : select_handler "" = Raise (Exc IndexError).
Proof. reflexivity. Qed.

(** ** The handlers *)

Lemma call_single (c : ascii) :
  ResponseTypes.call (String c "") =
    if Ascii.eqb c "Q" then Ok ResponseTypes.QUERY
    else if Ascii.eqb c "M" then Ok ResponseTypes.MEMORY
    else if Ascii.eqb c "F" then Ok ResponseTypes.FEEDBACK
    else if Ascii.eqb c "I" then Ok ResponseTypes.INVALID
    else Raise (Exc ValueError).
Proof.
  unfold ResponseTypes.call. cbn [String.eqb].
  repeat (destruct (Ascii.eqb c _); [reflexivity |]). reflexivity.
Qed.

Lemma select_handler_cons (c : ascii) (rest : string) :
  select_handler (String c rest) =
    if Ascii.eqb c "Q" then Ok QueryResponseHandler
    else if Ascii.eqb c "M" then Ok MemoryResponseHandler
    else if Ascii.eqb c "F" then Ok FeedbackResponseHandler
    else Ok InvalidResponseHandler.
Proof.
  unfold select_handler, str_getitem. cbn [String.get result_bind].
  rewrite call_single.
  repeat (destruct (Ascii.eqb c _); [reflexivity |]). reflexivity.
Qed.

Lemma call_value (x : ResponseTypes.t) :
  ResponseTypes.call (ResponseTypes.value x) = Ok x.
Proof. destruct x; reflexivity. Qed.

(** C1: for every non-empty classification output whose first
    character is none of Q, M, F, I, the handler selection returns an
    [InvalidResponseHandler] and raises nothing, whatever the
    unrecognised character and whatever follows it. *)
Theorem C1_unrecognized_code_selects_Invalid (c : ascii) (rest : string) :
  c <> "Q"%char -> c <> "M"%char -> c <> "F"%char -> c <> "I"%char ->
  select_handler (String c rest) = Ok InvalidResponseHandler.
Proof.
  intros HQ HM HF HI. rewrite select_handler_cons.
  destruct (Ascii.eqb_spec c "Q"); [contradiction |].
  destruct (Ascii.eqb_spec c "M"); [contradiction |].
  destruct (Ascii.eqb_spec c "F"); [contradiction |].
  reflexivity.
Qed.

Lemma C1_witness :
  select_handler "Xyz" = Ok InvalidResponseHandler.
Proof.
  apply (C1_unrecognized_code_selects_Invalid "X" "yz"); discriminate.
Defined.

(** C9: the Memory, Feedback and Invalid handlers return their fixed
    string for every argument list, so any two calls agree whatever
    arguments each receives. *)
Theorem C9_fixed_context_ignores_arguments (args1 args2 : list pyobject) :
  (get_context MemoryResponseHandler args1 = Ok "Context: respond using memory history."
   /\ get_context MemoryResponseHandler args1 = get_context MemoryResponseHandler args2)
  /\ (get_context FeedbackResponseHandler args1 = Ok "Context: user provided feedback."
      /\ get_context FeedbackResponseHandler args1 = get_context FeedbackResponseHandler args2)
  /\ (get_context InvalidResponseHandler args1 = Ok "Context: user provided invalid query."
      /\ get_context InvalidResponseHandler args1 = get_context InvalidResponseHandler args2).
Proof. repeat split. Qed.

(** ** The session store *)

Lemma get_session_history_present (session_id : string) (l : loc) (σ : interp) :
  session_store σ !! session_id = Some l ->
  get_session_history session_id σ = (Ok l, σ).
Proof.
  intros Hl. unfold get_session_history, bind, store_contains, store_getitem.
  rewrite bool_decide_eq_true_2 by (rewrite Hl; eauto).
  cbn. rewrite Hl. reflexivity.
Qed.

Lemma get_session_history_absent (session_id : string) (σ : interp) :
  session_store σ !! session_id = None ->
  get_session_history session_id σ =
    (Ok (fresh (dom (heap σ))),
     {| session_store := <[session_id := fresh (dom (heap σ))]> (session_store σ);
        heap := <[fresh (dom (heap σ)) := []]> (heap σ);
        trace := trace σ |}).
Proof.
  intros Hl. unfold get_session_history, bind, store_contains, store_getitem.
  rewrite bool_decide_eq_false_2 by (rewrite Hl; intros [? ?]; discriminate).
  cbn. rewrite lookup_insert_eq. reflexivity.
Qed.

Lemma fresh_loc_unused (σ : interp) : heap σ !! fresh (dom (heap σ)) = None.
Proof. apply not_elem_of_dom, is_fresh. Qed.

Lemma run_ops_keeps_object (session_id : string) (l : loc) (ops : list store_op) :
  forall (σ : interp) (ms : list message),
    session_store σ !! session_id = Some l ->
    heap σ !! l = Some ms ->
    session_store (run_ops ops σ) !! session_id = Some l
    /\ heap (run_ops ops σ) !! l = Some (ms ++ appended_to l ops)%list.
Proof.
  induction ops as [| o ops IH]; intros σ ms Hs Hh; cbn [run_ops appended_to].
  - rewrite app_nil_r. auto.
  - destruct o as [sid' | l' m]; cbn [run_op].
    + unfold bind. destruct (session_store σ !! sid') as [l'' |] eqn:Hsid'.
      * rewrite (get_session_history_present _ _ _ Hsid'). cbn. apply IH; assumption.
      * rewrite (get_session_history_absent _ _ Hsid'). cbn.
        apply IH; cbn.
        -- rewrite lookup_insert_ne; [assumption |]. intros ->. congruence.
        -- rewrite lookup_insert_ne; [assumption |].
           intros Heq. pose proof (fresh_loc_unused σ) as Hf.
           rewrite Heq in Hf. congruence.
    + cbn. destruct (Pos.eqb_spec l' l) as [-> | Hne].
      * replace (ms ++ m :: appended_to l ops)%list
          with ((ms ++ [m]) ++ appended_to l ops)%list
          by (rewrite <- app_assoc; reflexivity).
        apply IH; cbn; [assumption |].
        rewrite lookup_alter_eq, Hh. reflexivity.
      * apply IH; cbn; [assumption |].
        rewrite lookup_alter_ne; assumption.
Qed.

(** C5: the first lookup of a session id creates a new, empty history
    object; every later lookup of that id, whatever lookups and appends
    happened in between, returns that same object and changes nothing;
    and the object then holds exactly the messages appended to it, in
    the order of their appends. *)
Theorem C5_get_session_history_idempotent (session_id : string) (σ : interp) :
  session_store σ !! session_id = None ->
  exists (l : loc) (σ1 : interp),
    get_session_history session_id σ = (Ok l, σ1)
    /\ heap σ !! l = None
    /\ heap σ1 !! l = Some []
    /\ get_session_history session_id σ1 = (Ok l, σ1)
    /\ forall ops : list store_op,
         get_session_history session_id (run_ops ops σ1) = (Ok l, run_ops ops σ1)
         /\ heap (run_ops ops σ1) !! l = Some (appended_to l ops).
Proof.
  intros Hnone. rewrite (get_session_history_absent _ _ Hnone).
  eexists _, _. split; [reflexivity |].
  split; [apply fresh_loc_unused |].
  split; [cbn; apply lookup_insert_eq |].
  split.
  - apply get_session_history_present. cbn. apply lookup_insert_eq.
  - intros ops.
    destruct (run_ops_keeps_object session_id (fresh (dom (heap σ))) ops
                {| session_store := <[session_id := fresh (dom (heap σ))]> (session_store σ);
                   heap := <[fresh (dom (heap σ)) := []]> (heap σ);
                   trace := trace σ |} [])
      as [Hs Hh]; cbn; try apply lookup_insert_eq.
    split; [apply get_session_history_present; exact Hs | exact Hh].
Qed.

Lemma C5_witness :
  exists (l : loc) (σ1 : interp),
    get_session_history "abc123" initial_interp = (Ok l, σ1)
    /\ heap initial_interp !! l = None
    /\ heap σ1 !! l = Some []
    /\ get_session_history "abc123" σ1 = (Ok l, σ1)
    /\ forall ops : list store_op,
         get_session_history "abc123" (run_ops ops σ1) = (Ok l, run_ops ops σ1)
         /\ heap (run_ops ops σ1) !! l = Some (appended_to l ops).
Proof.
  apply (C5_get_session_history_idempotent "abc123" initial_interp).
  reflexivity.
Defined.

(** ** The session identifier *)

Lemma floor_scaled_lt (u : draw) (n : nat) : 0 < n -> floor_scaled u n < n.
Proof.
  intros Hn. unfold floor_scaled.
  apply Nat.Div0.div_lt_upper_bound. nia.
Qed.

Lemma alphabet_getitem (i : nat) :
  i < 62 ->
  exists c : ascii,
    str_getitem (ascii_letters +:+ digits) i = Ok (String c "")
    /\ is_ascii_alnum c = true.
Proof.
  intros Hi.
  assert (Hall :
    forallb (fun j =>
      match String.get j (ascii_letters +:+ digits) with
      | Some c => is_ascii_alnum c
      | None => false
      end) (seq 0 62) = true) by (vm_compute; reflexivity).
  rewrite forallb_forall in Hall.
  specialize (Hall i). rewrite in_seq in Hall.
  specialize (Hall ltac:(lia)).
  unfold str_getitem.
  destruct (String.get i (ascii_letters +:+ digits)) as [c |]; [| discriminate].
  exists c. auto.
Qed.

Lemma random_choices_alphabet (rnd : nat -> draw) (k : nat) :
  forall i : nat,
    exists cs : list string,
      random_choices (ascii_letters +:+ digits) rnd i k = Ok cs
      /\ String.length (str_join_empty cs) = k
      /\ string_forallb is_ascii_alnum (str_join_empty cs) = true.
Proof.
  induction k as [| k IH]; intros i; cbn [random_choices].
  - exists []. auto.
  - destruct (alphabet_getitem
                (floor_scaled (rnd i) (String.length (ascii_letters +:+ digits))))
      as (c & Hc & Halnum).
    { apply floor_scaled_lt. vm_compute. lia. }
    destruct (IH (S i)) as (cs & Hcs & Hlen & Hall).
    rewrite Hc. cbn [result_bind]. rewrite Hcs. cbn [result_bind].
    exists (String c "" :: cs). split; [reflexivity |].
    change (str_join_empty (String c "" :: cs)) with (String c (str_join_empty cs)).
    cbn [String.length string_forallb].
    rewrite Hlen, Halnum, Hall. auto.
Qed.

Lemma generate_session_id_6 (rnd : nat -> draw) :
  exists session_id : string,
    generate_session_id 6 rnd = Ok session_id
    /\ String.length session_id = 6
    /\ string_forallb is_ascii_alnum session_id = true.
Proof.
  unfold generate_session_id.
  destruct (random_choices_alphabet rnd 6 0) as (cs & Hcs & Hlen & Hall).
  rewrite Hcs. cbn [result_bind]. eauto.
Qed.

(** ** The driver: one call, one turn *)

Section DriverFacts.

Variable model : string.
Variable llm : list event -> list message -> string -> string.
Variable cypher_chain : list event -> string -> result pydict.

Lemma add_messages_frame (l : loc) (ms : list message) :
  forall σ : interp,
    exists σ' : interp,
      add_messages l ms σ = (Ok tt, σ')
      /\ session_store σ' = session_store σ
      /\ trace σ' = trace σ.
Proof.
  induction ms as [| m ms IH]; intros σ; cbn [add_messages].
  - exists σ. auto.
  - unfold bind. cbn.
    destruct (IH {| session_store := session_store σ;
                    heap := alter (fun ms0 => (ms0 ++ [m])%list) l (heap σ);
                    trace := trace σ |}) as (σ' & Hrun & Hs & Ht).
    exists σ'. auto.
Qed.

(** A history-aware call always returns the model's completion for
    the session's history and the question, logs exactly that call,
    and leaves the session id in the store. *)
Lemma chain_invoke_run (session_id question : string) (σ : interp) :
  exists σ' : interp,
    chain_with_history_invoke llm session_id question σ =
      (Ok (llm (trace σ) (session_messages σ session_id) question), σ')
    /\ trace σ' =
         (trace σ ++ [LlmCall session_id (session_messages σ session_id) question])%list
    /\ is_Some (session_store σ' !! session_id)
    /\ (forall s, is_Some (session_store σ !! s) -> is_Some (session_store σ' !! s)).
Proof.
  unfold chain_with_history_invoke, session_messages, bind.
  destruct (session_store σ !! session_id) as [l |] eqn:Hl.
  - rewrite (get_session_history_present _ _ _ Hl). cbn -[add_messages].
    match goal with
    | |- context [add_messages l ?ms ?σ0] =>
        destruct (add_messages_frame l ms σ0) as (σ' & Hrun & Hs & Ht)
    end.
    rewrite Hrun. exists σ'. cbn in Hs, Ht.
    rewrite Hs, Ht, Hl. eauto.
  - rewrite (get_session_history_absent _ _ Hl). cbn -[add_messages].
    unfold messages_of. cbn -[add_messages]. rewrite lookup_insert_eq.
    cbn -[add_messages].
    match goal with
    | |- context [add_messages ?l ?ms ?σ0] =>
        destruct (add_messages_frame l ms σ0) as (σ' & Hrun & Hs & Ht)
    end.
    rewrite Hrun. exists σ'. cbn in Hs, Ht.
    rewrite Hs, Ht. split; [reflexivity |]. split; [reflexivity |].
    split.
    + rewrite lookup_insert_eq. eauto.
    + intros s Hsome. destruct (decide (session_id = s)) as [-> | Hne].
      * rewrite lookup_insert_eq. eauto.
      * rewrite lookup_insert_ne; assumption.
Qed.

(** What lines 244-252 do for a Query handler, by the backend's answer. *)
Lemma resolve_context_query (content user_query : string) (σ : interp) :
  resolve_context cypher_chain QueryResponseHandler content user_query σ =
    let question := additional_info_of content +:+ " " +:+ user_query in
    (match cypher_chain (trace σ) question with
     | Ok d =>
         match d !! "result" with
         | Some r => Ok ("Context: database response was " +:+ r)
         | None => Raise (Exc KeyError)
         end
     | Raise (Exc _) => Ok ("Context: database response was " +:+ apology)
     | Raise KeyboardInterrupt => Raise KeyboardInterrupt
     end,
     logged σ (BackendCall question)).
Proof.
  unfold resolve_context, try_except_M, cypher_chain_invoke, bind, lift. cbn.
  destruct (cypher_chain (trace σ) _) as [d | [e |]]; cbn; try reflexivity.
  destruct (d !! "result"); reflexivity.
Qed.

(** Lines 253-254: the other handlers are called without arguments
    and nothing else happens. *)
Lemma resolve_context_other (h : ResponseHandler) (content user_query : string)
    (σ : interp) :
  h <> QueryResponseHandler ->
  resolve_context cypher_chain h content user_query σ = (get_context h [], σ).
Proof.
  intros Hh. destruct h; try contradiction; reflexivity.
Qed.

End DriverFacts.

Section TurnFacts.

Variable model : string.
Variable llm : list event -> list message -> string -> string.
Variable cypher_chain : list event -> string -> result pydict.

(** A turn, cut into its four steps.  The classification call always
    completes; what follows depends on its completion. *)
Lemma turn_steps (session_id user_query : string) (σ : interp) :
  let history := session_messages σ session_id in
  let classify := "Classify query:" +:+ user_query in
  let content := llm (trace σ) history classify in
  exists σ1 : interp,
    trace σ1 = (trace σ ++ [LlmCall session_id history classify])%list
    /\ is_Some (session_store σ1 !! session_id)
    /\ turn model llm cypher_chain session_id user_query σ =
         match select_handler content with
         | Raise e => (Raise e, σ1)
         | Ok h =>
             match resolve_context cypher_chain h content user_query σ1 with
             | (Raise e, σ2) => (Raise e, σ2)
             | (Ok context, σ2) =>
                 match chain_with_history_invoke llm session_id
                         (context +:+ answer_instruction +:+ user_query) σ2 with
                 | (Ok response, σ3) =>
                     (Ok tt, logged σ3 (ConsolePrint
                               (assistant_name model +:+ ":" +:+ response)))
                 | (Raise e, σ3) => (Raise e, σ3)
                 end
             end
         end.
Proof.
  intros history classify content.
  destruct (chain_invoke_run llm session_id classify σ) as (σ1 & Hrun & Ht & Hs & _).
  exists σ1. split; [exact Ht |]. split; [exact Hs |].
  unfold turn. unfold bind at 1. fold classify. rewrite Hrun.
  fold history. fold content.
  unfold bind at 1. unfold lift at 1.
  destruct (select_handler content) as [h | e]; [| reflexivity].
  unfold bind at 1.
  destruct (resolve_context cypher_chain h content user_query σ1) as [[context | e] σ2];
    [| reflexivity].
  unfold bind.
  destruct (chain_with_history_invoke llm session_id _ σ2) as [[response | e] σ3];
    reflexivity.
Qed.

End TurnFacts.

(** ** Query turns *)

Lemma select_handler_first_Q (content : string) :
  String.get 0 content = Some "Q"%char ->
  select_handler content = Ok QueryResponseHandler.
Proof.
  destruct content as [| c rest]; cbn; [discriminate |].
  intros [= ->]. rewrite select_handler_cons. reflexivity.
Qed.

(** C2: in a turn classified as Query whose backend call raises an
    [Exception], the context is the template around the fixed apology
    text, the turn raises nothing, and it goes on to the final model
    call, whose question starts with that context, and to the print. *)
Theorem C2_backend_failure_yields_apology
    (model : string) (llm : list event -> list message -> string -> string)
    (cypher_chain : list event -> string -> result pydict)
    (session_id user_query : string) (σ : interp) (e : exception) :
  let history := session_messages σ session_id in
  let classify := "Classify query:" +:+ user_query in
  let content := llm (trace σ) history classify in
  let question := additional_info_of content +:+ " " +:+ user_query in
  let context := "Context: database response was I'm sorry, I couldn't find any results." in
  String.get 0 content = Some "Q"%char ->
  cypher_chain (trace σ ++ [LlmCall session_id history classify])%list question
    = Raise (Exc e) ->
  exists (σ1 σ' : interp) (history' : list message) (response : string),
    fst (resolve_context cypher_chain QueryResponseHandler content user_query σ1)
      = Ok context
    /\ turn model llm cypher_chain session_id user_query σ = (Ok tt, σ')
    /\ trace σ' =
         (trace σ ++
            [LlmCall session_id history classify;
             BackendCall question;
             LlmCall session_id history' (context +:+ answer_instruction +:+ user_query);
             ConsolePrint (assistant_name model +:+ ":" +:+ response)])%list.
Proof.
  intros history classify content question context HQ Hraise.
  destruct (turn_steps model llm cypher_chain session_id user_query σ)
    as (σ1 & Ht1 & _ & Hturn).
  fold history classify content in Ht1, Hturn.
  rewrite (select_handler_first_Q _ HQ) in Hturn.
  rewrite resolve_context_query in Hturn. cbv zeta in Hturn.
  fold question in Hturn. rewrite Ht1, Hraise in Hturn.
  destruct (chain_invoke_run llm session_id
              (("Context: database response was " +:+ apology)
                 +:+ answer_instruction +:+ user_query)
              (logged σ1 (BackendCall question)))
    as (σ3 & Hrun & Ht3 & _).
  rewrite Hrun in Hturn.
  eexists σ1, _, _, _. split.
  - rewrite resolve_context_query. cbv zeta. fold question.
    rewrite Ht1, Hraise. reflexivity.
  - split; [exact Hturn |].
    cbn [logged trace]. rewrite Ht3. cbn [logged trace]. rewrite Ht1.
    rewrite <- !app_assoc. reflexivity.
Qed.

Lemma C2_witness :
  exists (σ1 σ' : interp) (history' : list message) (response : string),
    fst (resolve_context failing_backend QueryResponseHandler "Q  The Matrix"
           "who stars in it?" σ1)
      = Ok "Context: database response was I'm sorry, I couldn't find any results."
    /\ turn "gpt-4" (sample_llm "Q  The Matrix") failing_backend
         "abc123" "who stars in it?" initial_interp = (Ok tt, σ')
    /\ trace σ' =
         [LlmCall "abc123" [] "Classify query:who stars in it?";
          BackendCall "The Matrix who stars in it?";
          LlmCall "abc123" history'
            ("Context: database response was I'm sorry, I couldn't find any results."
               +:+ answer_instruction +:+ "who stars in it?");
          ConsolePrint (assistant_name "gpt-4" +:+ ":" +:+ response)].
Proof.
  apply (C2_backend_failure_yields_apology "gpt-4" (sample_llm "Q  The Matrix")
           failing_backend "abc123" "who stars in it?" initial_interp
           (OtherException "Neo4jError")); reflexivity.
Defined.

(** Characters are counted as Python counts them, an accented letter
    or an emoji being one character of several bytes. *)
Example characters_accented : characters "Qéé" = ["Q"; "é"; "é"].
Proof. reflexivity. Qed.

Example additional_info_of_accented :
  additional_info_of "Qéé" = "" /\ additional_info_of "Q é abc" = " abc".
Proof. split; reflexivity. Qed.

Example additional_info_of_emoji : additional_info_of "Q 😀x yz" = "x yz".
Proof. reflexivity. Qed.

(** The characters of a string, joined, give the string back. *)
Lemma characters_join (s : string) : str_join_empty (characters s) = s.
Proof.
  induction s as [| c s IH]; [reflexivity |].
  cbn [characters]. destruct (characters s) as [| g gs].
  - cbn in IH. subst s. reflexivity.
  - destruct (starts_with_continuation s);
      change (String c (str_join_empty (g :: gs)) = String c s);
      rewrite IH; reflexivity.
Qed.

Lemma characters_tail (s : string) :
  forall (g : string) (gs : list string),
    characters s = g :: gs -> characters (str_join_empty gs) = gs.
Proof.
  induction s as [| c s IH]; intros g gs Hs; [discriminate Hs |].
  cbn [characters] in Hs. destruct (characters s) as [| g' gs'] eqn:Hcs.
  - injection Hs as _ <-. reflexivity.
  - destruct (starts_with_continuation s).
    + injection Hs as _ <-. apply (IH g' gs' eq_refl).
    + injection Hs as _ <-. rewrite <- Hcs, characters_join. reflexivity.
Qed.

(** Dropping characters and joining the rest gives a string whose
    characters are the characters kept. *)
Lemma characters_drop (n : nat) :
  forall s : string,
    characters (str_join_empty (drop n (characters s))) = drop n (characters s).
Proof.
  induction n as [| n IH]; intros s.
  - rewrite drop_0, characters_join. reflexivity.
  - destruct (characters s) as [| g gs] eqn:Hcs; [reflexivity |].
    cbn [drop]. rewrite <- (characters_tail s g gs Hcs). apply IH.
Qed.

(** The guard of line 247 changes nothing: the auxiliary text is the
    slice from index 3 in every case. *)
Lemma additional_info_of_slice (content : string) :
  additional_info_of content = py_slice_from 3 content.
Proof.
  unfold additional_info_of, py_slice_from, py_len.
  destruct (Nat.ltb_spec 3 (length (characters content))) as [Hlong | Hshort];
    [reflexivity |].
  rewrite drop_ge by lia. reflexivity.
Qed.

Lemma additional_info_of_characters (content : string) :
  characters (additional_info_of content) = drop 3 (characters content).
Proof. rewrite additional_info_of_slice. apply characters_drop. Qed.

Lemma backend_questions_app_one (tr tail : list event) (question : string) :
  backend_questions tail = [question] ->
  backend_questions (tr ++ tail) = (backend_questions tr ++ [question])%list.
Proof.
  intros Htail. unfold backend_questions in *. rewrite omap_app, Htail. reflexivity.
Qed.

(** C3, as amended: in every turn classified as Query the backend is
    called exactly once, with the auxiliary text, one space and the
    user's query, where the auxiliary text is the classification output
    from index 3 on, counted in characters (empty when the output has
    at most 3 characters).
    For the output ["Q  The Matrix"] the auxiliary text is
    ["The Matrix"], without a leading space.  When the backend returns
    a dict with a ["result"] entry, the turn completes and the context
    handed to the final model call is the template around that entry. *)
Theorem C3_backend_receives_slice_from_3
    (model : string) (llm : list event -> list message -> string -> string)
    (cypher_chain : list event -> string -> result pydict)
    (session_id user_query : string) (σ : interp) :
  let history := session_messages σ session_id in
  let classify := "Classify query:" +:+ user_query in
  let content := llm (trace σ) history classify in
  let σ' := snd (turn model llm cypher_chain session_id user_query σ) in
  String.get 0 content = Some "Q"%char ->
  exists aux : string,
    characters aux = drop 3 (characters content)
    /\ (py_len content <= 3 -> aux = "")
    /\ (content = "Q  The Matrix" -> aux = "The Matrix")
    /\ backend_questions (trace σ') =
         (backend_questions (trace σ) ++ [aux +:+ " " +:+ user_query])%list
    /\ forall (d : pydict) (r : string),
         cypher_chain (trace σ ++ [LlmCall session_id history classify])%list
           (aux +:+ " " +:+ user_query) = Ok d ->
         d !! "result" = Some r ->
         exists (history' : list message) (response : string),
           fst (turn model llm cypher_chain session_id user_query σ) = Ok tt
           /\ trace σ' =
                (trace σ ++
                   [LlmCall session_id history classify;
                    BackendCall (aux +:+ " " +:+ user_query);
                    LlmCall session_id history'
                      (("Context: database response was " +:+ r)
                         +:+ answer_instruction +:+ user_query);
                    ConsolePrint (assistant_name model +:+ ":" +:+ response)])%list.
Proof.
  intros history classify content σ' HQ.
  exists (additional_info_of content).
  split; [apply additional_info_of_characters |].
  split.
  { intros Hshort. unfold additional_info_of.
    destruct (Nat.ltb_spec 3 (py_len content)); [lia | reflexivity]. }
  split; [intros ->; reflexivity |].
  destruct (turn_steps model llm cypher_chain session_id user_query σ)
    as (σ1 & Ht1 & _ & Hturn).
  fold history classify content in Ht1, Hturn.
  rewrite (select_handler_first_Q _ HQ) in Hturn.
  rewrite resolve_context_query in Hturn. cbv zeta in Hturn.
  set (question := additional_info_of content +:+ " " +:+ user_query) in *.
  rewrite Ht1 in Hturn.
  destruct (cypher_chain (trace σ ++ [LlmCall session_id history classify])%list question)
    as [d | [e |]] eqn:Hbackend.
  - destruct (d !! "result") as [r |] eqn:Hr.
    + match type of Hturn with
      | context [chain_with_history_invoke llm session_id ?q ?σ2] =>
          destruct (chain_invoke_run llm session_id q σ2) as (σ3 & Hrun & Ht3 & _)
      end.
      rewrite Hrun in Hturn.
      assert (Htrace : trace σ' =
                (trace σ ++
                   [LlmCall session_id history classify;
                    BackendCall question;
                    LlmCall session_id
                      (session_messages (logged σ1 (BackendCall question)) session_id)
                      (("Context: database response was " +:+ r)
                         +:+ answer_instruction +:+ user_query);
                    ConsolePrint (assistant_name model +:+ ":" +:+
                      llm (trace (logged σ1 (BackendCall question)))
                        (session_messages (logged σ1 (BackendCall question)) session_id)
                        (("Context: database response was " +:+ r)
                           +:+ answer_instruction +:+ user_query))])%list).
      { subst σ'. rewrite Hturn. cbn [snd logged trace]. rewrite Ht3.
        cbn [logged trace]. rewrite Ht1. rewrite <- !app_assoc. reflexivity. }
      split.
      * rewrite Htrace. apply backend_questions_app_one. reflexivity.
      * intros d' r' [= <-] Hr'. rewrite Hr in Hr'. injection Hr' as <-.
        eexists _, _. split; [rewrite Hturn; reflexivity | exact Htrace].
    + split.
      * subst σ'. rewrite Hturn. cbn [snd logged trace]. rewrite Ht1.
        rewrite <- app_assoc. apply backend_questions_app_one. reflexivity.
      * intros d' r' [= <-] Hr'. congruence.
  - match type of Hturn with
    | context [chain_with_history_invoke llm session_id ?q ?σ2] =>
        destruct (chain_invoke_run llm session_id q σ2) as (σ3 & Hrun & Ht3 & _)
    end.
    rewrite Hrun in Hturn.
    split; [| intros d r [=]].
    subst σ'. rewrite Hturn. cbn [snd logged trace]. rewrite Ht3.
    cbn [logged trace]. rewrite Ht1. rewrite <- !app_assoc.
    apply backend_questions_app_one. reflexivity.
  - split; [| intros d r [=]].
    subst σ'. rewrite Hturn. cbn [snd logged trace]. rewrite Ht1.
    rewrite <- app_assoc. apply backend_questions_app_one. reflexivity.
Qed.

Lemma C3_witness :
  exists aux : string,
    aux = "The Matrix"
    /\ backend_questions
         (trace (snd (turn "gpt-4" (sample_llm "Q  The Matrix") answering_backend
                        "abc123" "who stars in it?" initial_interp)))
       = [aux +:+ " " +:+ "who stars in it?"].
Proof.
  destruct (C3_backend_receives_slice_from_3 "gpt-4" (sample_llm "Q  The Matrix")
              answering_backend "abc123" "who stars in it?" initial_interp eq_refl)
    as (aux & _ & _ & Hmatrix & Hquestions & _).
  exists aux. split; [apply Hmatrix; reflexivity | exact Hquestions].
Defined.

(** C3 as stated fails on its own example: for the classification
    output ["Q  The Matrix"] the backend receives
    ["The Matrix who stars in it?"], which does not start with a space. *)
Lemma C3_counterexample :
  let tr := trace (snd (turn "gpt-4" (sample_llm "Q  The Matrix") answering_backend
                          "abc123" "who stars in it?" initial_interp)) in
  backend_questions tr = ["The Matrix who stars in it?"]
  /\ backend_questions tr <> [" The Matrix " +:+ "who stars in it?"].
Proof.
  cbv zeta. split; [vm_compute; reflexivity |].
  intros Heq. vm_compute in Heq. discriminate Heq.
Qed.

(** ** Turns that need no backend *)

(** C6: when the classification output is ["M"], the Memory handler
    is selected; and in every turn whose handler is not the Query
    handler (Memory, Feedback or Invalid) the turn completes with
    exactly two model calls and one print, the backend is not called,
    and the context handed to the final model call is the handler's
    fixed string, which for Memory is
    ["Context: respond using memory history."]. *)
Theorem C6_no_backend_call_outside_Query
    (model : string) (llm : list event -> list message -> string -> string)
    (cypher_chain : list event -> string -> result pydict)
    (session_id user_query : string) (σ : interp) (h : ResponseHandler) :
  let history := session_messages σ session_id in
  let classify := "Classify query:" +:+ user_query in
  let content := llm (trace σ) history classify in
  let σ' := snd (turn model llm cypher_chain session_id user_query σ) in
  select_handler content = Ok h ->
  h <> QueryResponseHandler ->
  exists (context : string) (history' : list message) (response : string),
    get_context h [] = Ok context
    /\ (content = "M" -> h = MemoryResponseHandler)
    /\ (h = MemoryResponseHandler -> context = "Context: respond using memory history.")
    /\ fst (turn model llm cypher_chain session_id user_query σ) = Ok tt
    /\ trace σ' =
         (trace σ ++
            [LlmCall session_id history classify;
             LlmCall session_id history' (context +:+ answer_instruction +:+ user_query);
             ConsolePrint (assistant_name model +:+ ":" +:+ response)])%list
    /\ backend_questions (trace σ') = backend_questions (trace σ).
Proof.
  intros history classify content σ' Hsel Hh.
  destruct (turn_steps model llm cypher_chain session_id user_query σ)
    as (σ1 & Ht1 & _ & Hturn).
  fold history classify content in Ht1, Hturn.
  rewrite Hsel in Hturn.
  rewrite (resolve_context_other cypher_chain h content user_query σ1 Hh) in Hturn.
  assert (Hctx : exists context, get_context h [] = Ok context
                   /\ (h = MemoryResponseHandler ->
                       context = "Context: respond using memory history.")).
  { destruct h; try contradiction; eexists; (split; [reflexivity |]);
      intros; try discriminate; reflexivity. }
  destruct Hctx as (context & Hctx & Hmem).
  rewrite Hctx in Hturn.
  destruct (chain_invoke_run llm session_id
              (context +:+ answer_instruction +:+ user_query) σ1)
    as (σ3 & Hrun & Ht3 & _).
  rewrite Hrun in Hturn.
  assert (Htrace : trace σ' =
            (trace σ ++
               [LlmCall session_id history classify;
                LlmCall session_id (session_messages σ1 session_id)
                  (context +:+ answer_instruction +:+ user_query);
                ConsolePrint (assistant_name model +:+ ":" +:+
                  llm (trace σ1) (session_messages σ1 session_id)
                    (context +:+ answer_instruction +:+ user_query))])%list).
  { subst σ'. rewrite Hturn. cbn [snd logged trace]. rewrite Ht3, Ht1.
    rewrite <- !app_assoc. reflexivity. }
  eexists context, _, _.
  split; [exact Hctx |].
  split; [intros HM; rewrite HM in Hsel; cbn in Hsel; congruence |].
  split; [exact Hmem |].
  split; [rewrite Hturn; reflexivity |].
  split; [exact Htrace |].
  rewrite Htrace. unfold backend_questions. rewrite omap_app. cbn.
  apply app_nil_r.
Qed.

Lemma C6_witness :
  let σ' := snd (turn "gpt-4" (sample_llm "M") answering_backend
                   "abc123" "what did I ask before?" initial_interp) in
  exists (history' : list message) (response : string),
    trace σ' =
      [LlmCall "abc123" [] "Classify query:what did I ask before?";
       LlmCall "abc123" history'
         ("Context: respond using memory history." +:+ answer_instruction
            +:+ "what did I ask before?");
       ConsolePrint (assistant_name "gpt-4" +:+ ":" +:+ response)]
    /\ backend_questions (trace σ') = [].
Proof.
  destruct (C6_no_backend_call_outside_Query "gpt-4" (sample_llm "M")
              answering_backend "abc123" "what did I ask before?" initial_interp
              MemoryResponseHandler eq_refl ltac:(discriminate))
    as (context & history' & response & _ & _ & Hmem & _ & Htrace & Hquestions).
  rewrite (Hmem eq_refl) in Htrace.
  exists history', response. split; [exact Htrace | exact Hquestions].
Defined.

(** ** The empty classification output *)

(** C4 fails on the code: for the empty classification output the
    index [content[0]] raises [IndexError], which [except ValueError]
    does not catch; no handler is selected, the exception leaves the
    turn, and [main] ends with it uncaught. *)
Theorem C4_empty_classification_raises_IndexError
    (model : string) (cypher_chain : list event -> string -> result pydict)
    (session_id user_query : string) (σ : interp)
    (dump_memory_on_exit : bool) (rnd : nat -> draw) (rest : list console_input) :
  let llm := fun (_ : list event) (_ : list message) (_ : string) => "" in
  select_handler "" = Raise (Exc IndexError)
  /\ fst (turn model llm cypher_chain session_id user_query σ) = Raise (Exc IndexError)
  /\ fst (main model llm cypher_chain dump_memory_on_exit rnd (Line user_query :: rest))
       = Uncaught (Exc IndexError).
Proof.
  intros llm.
  assert (Hturn : forall sid σ0,
            fst (turn model llm cypher_chain sid user_query σ0) = Raise (Exc IndexError)).
  { intros sid σ0.
    destruct (turn_steps model llm cypher_chain sid user_query σ0)
      as (σ1 & _ & _ & Hsteps).
    rewrite Hsteps. reflexivity. }
  split; [reflexivity |]. split; [apply Hturn |].
  unfold main.
  destruct (generate_session_id_6 rnd) as (sid & Hsid & _). rewrite Hsid.
  cbn [main_loop]. specialize (Hturn sid (startup model)).
  destruct (turn model llm cypher_chain sid user_query (startup model)) as [[u | e] σ1];
    cbn in Hturn; [discriminate |].
  injection Hturn as ->. reflexivity.
Qed.

(** ** The whole run *)

Lemma llm_calls_app (tr1 tr2 : list event) :
  llm_calls (tr1 ++ tr2) = llm_calls tr1 + llm_calls tr2.
Proof. unfold llm_calls. rewrite filter_app, length_app. reflexivity. Qed.

Section RunFacts.

Variable model : string.
Variable llm : list event -> list message -> string -> string.
Variable cypher_chain : list event -> string -> result pydict.

(** Resolving the context never touches the store and never calls
    the model. *)
Lemma resolve_context_frame (h : ResponseHandler) (content user_query : string)
    (σ : interp) :
  exists (r : result string) (σ2 : interp) (tail : list event),
    resolve_context cypher_chain h content user_query σ = (r, σ2)
    /\ session_store σ2 = session_store σ
    /\ trace σ2 = (trace σ ++ tail)%list
    /\ Forall (fun ev => is_LlmCall ev = false) tail.
Proof.
  assert (Hcases : h = QueryResponseHandler \/ h <> QueryResponseHandler)
    by (destruct h; auto; right; discriminate).
  destruct Hcases as [-> | Hh].
  - rewrite resolve_context_query. cbv zeta.
    eexists _, _, [_]. split; [reflexivity |].
    split; [reflexivity |]. split; [reflexivity |].
    repeat constructor.
  - rewrite (resolve_context_other cypher_chain h content user_query σ Hh).
    exists (get_context h []), σ, []. rewrite app_nil_r. auto.
Qed.

(** Whatever a turn does and however it ends, it starts with a model
    call for the session, every model call it makes is for that
    session, and it leaves the session id in the store. *)
Lemma turn_extends (session_id user_query : string) (σ : interp) :
  exists (first : event) (tail : list event),
    is_LlmCall first = true
    /\ trace (snd (turn model llm cypher_chain session_id user_query σ))
         = (trace σ ++ first :: tail)%list
    /\ Forall (uses_session session_id) (first :: tail)
    /\ is_Some (session_store
                  (snd (turn model llm cypher_chain session_id user_query σ))
                !! session_id).
Proof.
  destruct (turn_steps model llm cypher_chain session_id user_query σ)
    as (σ1 & Ht1 & Hs1 & Hturn).
  rewrite Hturn. clear Hturn.
  eexists (LlmCall session_id _ _). 
  destruct (select_handler _) as [h | e].
  2:{ exists []. cbn [snd]. rewrite Ht1. repeat split; auto.
      repeat constructor. }
  destruct (resolve_context_frame h
              (llm (trace σ) (session_messages σ session_id)
                 ("Classify query:" +:+ user_query)) user_query σ1)
    as (r & σ2 & tail2 & Hres & Hs2 & Ht2 & Hno).
  rewrite Hres.
  assert (Htail2 : Forall (uses_session session_id) tail2).
  { eapply Forall_impl; [exact Hno |]. intros [] Hev; cbn in *; auto; discriminate. }
  destruct r as [context | e].
  2:{ exists tail2. cbn [snd]. rewrite Ht2, Ht1, Hs2, <- app_assoc.
      repeat split; auto. constructor; [reflexivity | exact Htail2]. }
  destruct (chain_invoke_run llm session_id
              (context +:+ answer_instruction +:+ user_query) σ2)
    as (σ3 & Hrun & Ht3 & Hs3 & _).
  rewrite Hrun. cbn [snd logged trace session_store].
  eexists (tail2 ++ [LlmCall session_id _ _; ConsolePrint _])%list.
  rewrite Ht3, Ht2, Ht1.
  split; [reflexivity |].
  split; [rewrite <- !app_assoc; reflexivity |].
  split; [| exact Hs3].
  constructor; [reflexivity |].
  apply Forall_app. split; [exact Htail2 |].
  repeat constructor.
Qed.

(** The loop either ends at once, at the prompt, with the state it
    was entered with, or after at least one turn, and then with a
    model call made and the session id in the store. *)
Lemma main_loop_run (session_id : string) (inputs : list console_input) :
  forall σ0 : interp,
    exists tail : list event,
      trace (snd (main_loop model llm cypher_chain session_id inputs σ0))
        = (trace σ0 ++ tail)%list
      /\ Forall (uses_session session_id) tail
      /\ ((snd (main_loop model llm cypher_chain session_id inputs σ0) = σ0
           /\ tail = []
           /\ (inputs = [] \/ exists rest, inputs = CtrlC :: rest))
          \/ (is_Some (session_store
                         (snd (main_loop model llm cypher_chain session_id inputs σ0))
                       !! session_id)
              /\ 0 < llm_calls tail
              /\ exists q rest, inputs = Line q :: rest)).
Proof.
  induction inputs as [| input rest IH]; intros σ0.
  - exists []. cbn. rewrite app_nil_r. auto 10.
  - destruct input as [q |].
    2:{ exists []. cbn. rewrite app_nil_r. eauto 10. }
    cbn [main_loop].
    destruct (turn_extends session_id q σ0) as (first & tail1 & Hfirst & Ht & Hall & Hs).
    destruct (turn model llm cypher_chain session_id q σ0) as [[u | e] σ1];
      cbn [snd] in Ht, Hs.
    + destruct (IH σ1) as (tail & Htr & Hall' & Hcases).
      exists ((first :: tail1) ++ tail)%list.
      rewrite Htr, Ht, <- app_assoc.
      split; [reflexivity |].
      split; [apply Forall_app; auto |].
      right. split.
      * destruct Hcases as [(-> & _ & _) | (Hsome & _ & _)]; assumption.
      * split; [| eauto].
        rewrite llm_calls_app. unfold llm_calls at 1.
        rewrite filter_cons_True by (rewrite Hfirst; exact I).
        cbn. lia.
    + exists (first :: tail1). cbn [snd].
      split; [exact Ht |]. split; [exact Hall |].
      right. split; [exact Hs |]. split; [| eauto].
      unfold llm_calls. rewrite filter_cons_True by (rewrite Hfirst; exact I).
      cbn. lia.
Qed.

End RunFacts.

(** The interrupt handler, by the flag and by what the store holds. *)
Lemma on_interrupt_run (dump_memory_on_exit : bool) (session_id : string) (σ : interp) :
  on_interrupt dump_memory_on_exit session_id σ =
    let σ1 := logged σ (ConsolePrint outro_text) in
    if dump_memory_on_exit then
      let σ2 := logged σ1 (FileOpen (dump_file_name session_id)) in
      match session_store σ !! session_id with
      | Some l =>
          (Ok tt, logged σ2 (FileDump (dump_file_name session_id) (messages_of σ l)))
      | None => (Raise (Exc KeyError), σ2)
      end
    else (Ok tt, σ1).
Proof.
  unfold on_interrupt, dump_memory, bind, store_getitem, read_messages. cbn.
  destruct dump_memory_on_exit; [| reflexivity]. cbn.
  destruct (session_store σ !! session_id); reflexivity.
Qed.

(** C8: the session identifier generated at the start of [main] is a
    string of exactly 6 characters, each an ASCII letter or digit,
    whatever the random draws; and every model call of the run is made
    for that one identifier. *)
Theorem C8_session_id_six_alnum_and_stable
    (model : string) (llm : list event -> list message -> string -> string)
    (cypher_chain : list event -> string -> result pydict)
    (dump_memory_on_exit : bool) (rnd : nat -> draw) (inputs : list console_input) :
  exists session_id : string,
    generate_session_id 6 rnd = Ok session_id
    /\ String.length session_id = 6
    /\ string_forallb is_ascii_alnum session_id = true
    /\ forall (s : string) (history : list message) (question : string),
         In (LlmCall s history question)
            (trace (snd (main model llm cypher_chain dump_memory_on_exit rnd inputs))) ->
         s = session_id.
Proof.
  destruct (generate_session_id_6 rnd) as (sid & Hsid & Hlen & Halnum).
  exists sid. split; [exact Hsid |]. split; [exact Hlen |]. split; [exact Halnum |].
  assert (Hall : Forall (uses_session sid)
                   (trace (snd (main model llm cypher_chain dump_memory_on_exit
                                  rnd inputs)))).
  { unfold main. rewrite Hsid.
    destruct (main_loop_run model llm cypher_chain sid inputs (startup model))
      as (tail & Htr & Htail & _).
    destruct (main_loop model llm cypher_chain sid inputs (startup model)) as [e σ].
    cbn [snd] in Htr.
    assert (Hσ : Forall (uses_session sid) (trace σ)).
    { rewrite Htr. apply Forall_app. split; [| exact Htail]. repeat constructor. }
    destruct (is_KeyboardInterrupt e); [| exact Hσ].
    rewrite on_interrupt_run. cbv zeta.
    destruct dump_memory_on_exit.
    - destruct (session_store σ !! sid); cbn [snd logged trace];
        repeat (apply Forall_app; split; [| repeat constructor]); exact Hσ.
    - cbn [snd logged trace]. apply Forall_app. split; [exact Hσ | repeat constructor]. }
  intros s history question Hin.
  rewrite Forall_forall in Hall.
  apply (Hall (LlmCall s history question)).
  apply list_elem_of_In. exact Hin.
Qed.

(** C10: the dump on exit indexes the store without a guard.  In a run
    with [--dump-memory-on-exit] whose loop is ended by an interrupt,
    [main] returns, having written the session's messages, exactly when
    a model call has been made before the interrupt; it ends with an
    uncaught [KeyError], after opening the file, exactly when none has
    been made; and none has been made exactly when the interrupt is the
    first thing read at the prompt. *)
Theorem C10_dump_succeeds_iff_model_called
    (model : string) (llm : list event -> list message -> string -> string)
    (cypher_chain : list event -> string -> result pydict)
    (rnd : nat -> draw) (inputs : list console_input)
    (session_id : string) (σ : interp) :
  generate_session_id 6 rnd = Ok session_id ->
  main_loop model llm cypher_chain session_id inputs (startup model)
    = (KeyboardInterrupt, σ) ->
  let run := main model llm cypher_chain true rnd inputs in
  let opened :=
    (trace σ ++ [ConsolePrint outro_text; FileOpen (dump_file_name session_id)])%list in
  (0 < llm_calls (trace σ) <-> fst run = Returned)
  /\ (llm_calls (trace σ) = 0 <-> fst run = Uncaught (Exc KeyError))
  /\ (llm_calls (trace σ) = 0 <-> exists rest, inputs = CtrlC :: rest)
  /\ (fst run = Returned ->
      trace (snd run) =
        (opened ++ [FileDump (dump_file_name session_id)
                      (session_messages σ session_id)])%list)
  /\ (fst run = Uncaught (Exc KeyError) -> trace (snd run) = opened).
Proof.
  intros Hsid Hloop run opened.
  destruct (main_loop_run model llm cypher_chain session_id inputs (startup model))
    as (tail & Htr & _ & Hcases).
  rewrite Hloop in Htr, Hcases. cbn [snd] in Htr, Hcases.
  assert (Hcalls : llm_calls (trace σ) = llm_calls tail).
  { rewrite Htr, llm_calls_app. reflexivity. }
  assert (Hrun : run =
            match session_store σ !! session_id with
            | Some l =>
                (Returned,
                 logged (logged (logged σ (ConsolePrint outro_text))
                           (FileOpen (dump_file_name session_id)))
                   (FileDump (dump_file_name session_id) (messages_of σ l)))
            | None =>
                (Uncaught (Exc KeyError),
                 logged (logged σ (ConsolePrint outro_text))
                   (FileOpen (dump_file_name session_id)))
            end).
  { subst run. unfold main. rewrite Hsid, Hloop. cbn [is_KeyboardInterrupt].
    rewrite on_interrupt_run. cbv zeta.
    destruct (session_store σ !! session_id); reflexivity. }
  destruct Hcases as [(Hσ & -> & Hin) | (Hsome & Hpos & q & rest & Hin)].
  - assert (Hnone : session_store σ !! session_id = None) by (rewrite Hσ; reflexivity).
    rewrite Hnone in Hrun. rewrite Hrun, Hcalls. cbn [fst snd logged trace llm_calls].
    assert (Hzero : llm_calls [] = 0) by reflexivity.
    rewrite Hzero.
    split; [split; [lia | discriminate] |].
    split; [tauto |].
    split.
    { split; [intros _ | reflexivity].
      destruct Hin as [-> | Hin]; [cbn in Hloop; discriminate | exact Hin]. }
    split; [discriminate |].
    intros _. subst opened. rewrite <- app_assoc. reflexivity.
  - destruct Hsome as [l Hl].
    rewrite Hl in Hrun. rewrite Hrun, Hcalls. cbn [fst snd logged trace].
    split; [tauto |].
    split; [split; [lia | discriminate] |].
    split.
    { split; [lia |]. intros [rest' Hrest]. congruence. }
    split; [| discriminate].
    intros _. subst opened. unfold session_messages. rewrite Hl.
    rewrite <- !app_assoc. reflexivity.
Qed.

Lemma C10_witness :
  fst (main "gpt-4" (sample_llm "M") answering_backend true
         (fun _ => Draw 1 2) [CtrlC])
    = Uncaught (Exc KeyError).
Proof.
  destruct (C10_dump_succeeds_iff_model_called "gpt-4" (sample_llm "M")
              answering_backend (fun _ => Draw 1 2) [CtrlC] "pppppp"
              (startup "gpt-4") eq_refl eq_refl)
    as (_ & Hzero & _).
  apply Hzero. reflexivity.
Defined.

(** * Further properties of the code *)

(** ** The enumeration and the factory *)

(** X1: looking a member up by value inverts [value]: the lookup
    returns a member exactly for that member's value, and raises
    [ValueError] exactly for the strings that are no member's value. *)
Theorem X1_ResponseTypes_lookup_inverts_value (v : string) :
  (forall x : ResponseTypes.t,
      ResponseTypes.call v = Ok x <-> v = ResponseTypes.value x)
  /\ (ResponseTypes.call v = Raise (Exc ValueError)
      <-> forall x : ResponseTypes.t, v <> ResponseTypes.value x)
  /\ (forall e : base_exception,
        ResponseTypes.call v = Raise e -> e = Exc ValueError).
Proof.
  unfold ResponseTypes.call.
  destruct (String.eqb_spec v "Q") as [-> | HQ].
  { repeat split; try discriminate.
    - intros [= <-]. reflexivity.
    - destruct x; cbn; intros [=]. reflexivity.
    - intros H. exfalso. apply (H ResponseTypes.QUERY). reflexivity. }
  destruct (String.eqb_spec v "M") as [-> | HM].
  { repeat split; try discriminate.
    - intros [= <-]. reflexivity.
    - destruct x; cbn; intros [=]. reflexivity.
    - intros H. exfalso. apply (H ResponseTypes.MEMORY). reflexivity. }
  destruct (String.eqb_spec v "F") as [-> | HF].
  { repeat split; try discriminate.
    - intros [= <-]. reflexivity.
    - destruct x; cbn; intros [=]. reflexivity.
    - intros H. exfalso. apply (H ResponseTypes.FEEDBACK). reflexivity. }
  destruct (String.eqb_spec v "I") as [-> | HI].
  { repeat split; try discriminate.
    - intros [= <-]. reflexivity.
    - destruct x; cbn; intros [=]. reflexivity.
    - intros H. exfalso. apply (H ResponseTypes.INVALID). reflexivity. }
  split; [intros x; split; [discriminate | intros ->; destruct x; cbn in *; congruence] |].
  split; [split; [intros _ x ->; destruct x; cbn in *; congruence | reflexivity] |].
  intros e [= <-]. reflexivity.
Qed.

(** X2: the factory and [type_] are inverse to each other: the handler
    created for a type reports that type, and creating a handler for
    the type a handler reports gives a handler of the same class; the
    factory's final [else] is never needed. *)
Theorem X2_factory_inverts_type_ :
  (forall ty : ResponseTypes.t,
      type_ (ResponseHandlerFactory.create_response_handler ty) = ty)
  /\ (forall h : ResponseHandler,
        ResponseHandlerFactory.create_response_handler (type_ h) = h)
  /\ (forall ty1 ty2 : ResponseTypes.t,
        ResponseHandlerFactory.create_response_handler ty1
          = ResponseHandlerFactory.create_response_handler ty2 -> ty1 = ty2).
Proof.
  split; [intros []; reflexivity |].
  split; [intros []; reflexivity |].
  intros [] []; cbn; intros H; try reflexivity; discriminate H.
Qed.

(** X3: the Query handler returns a context exactly when its first
    argument is a dict with a ["result"] entry, and the context is then
    the template followed by that entry, whatever the other entries and
    the other arguments; it raises [IndexError] exactly without
    arguments, [KeyError] exactly for a dict without the entry, and
    [TypeError] exactly for a first argument that is no dict. *)
Theorem X3_query_context_outcomes (args : list pyobject) :
  (forall s : string,
      get_context QueryResponseHandler args = Ok s
      <-> exists (d : pydict) (rest : list pyobject) (r : string),
            args = PyDict d :: rest
            /\ d !! "result" = Some r
            /\ s = "Context: database response was " +:+ r)
  /\ (get_context QueryResponseHandler args = Raise (Exc IndexError) <-> args = [])
  /\ (get_context QueryResponseHandler args = Raise (Exc KeyError)
      <-> exists (d : pydict) (rest : list pyobject),
            args = PyDict d :: rest /\ d !! "result" = None)
  /\ (get_context QueryResponseHandler args = Raise (Exc TypeError)
      <-> exists (o : pyobject) (rest : list pyobject),
            args = o :: rest /\ forall d : pydict, o <> PyDict d).
Proof.
  destruct args as [| [| s0 | d] rest]; cbn.
  - repeat split; try discriminate; try (intros (? & ? & ? & ? & _); discriminate);
      try (intros (? & ? & ? & _); discriminate).
  - repeat split; try discriminate; try (intros (? & ? & ? & ? & _); discriminate);
      try (intros (? & ? & ? & _); discriminate).
    intros _. exists PyNone, rest. split; [reflexivity | discriminate].
  - repeat split; try discriminate; try (intros (? & ? & ? & ? & _); discriminate);
      try (intros (? & ? & ? & _); discriminate).
    intros _. exists (PyStr s0), rest. split; [reflexivity | discriminate].
  - destruct (d !! "result") as [r |] eqn:Hr; cbn.
    + repeat split; try discriminate.
      * intros [= <-]. exists d, rest, r. auto.
      * intros (d' & rest' & r' & [= <- <-] & Hr' & ->). congruence.
      * intros (d' & rest' & [= <- <-] & Hr'). congruence.
      * intros (o & rest' & [= <- <-] & Hno). exfalso. apply (Hno d). reflexivity.
    + repeat split; try discriminate.
      * intros (d' & rest' & r' & [= <- <-] & Hr' & _). congruence.
      * intros _. exists d, rest. auto.
      * intros (o & rest' & [= <- <-] & Hno). exfalso. apply (Hno d). reflexivity.
Qed.

(** X4: the handler selection of the driver raises exactly for the
    empty classification output, and then [IndexError]; for any other
    output it returns a handler that depends on the first character
    only: the handler whose code that character is, or the Invalid
    handler when it is no code. *)
Theorem X4_select_handler_by_first_character (content : string) :
  (select_handler content = Raise (Exc IndexError) <-> content = "")
  /\ (forall e : base_exception,
        select_handler content = Raise e -> e = Exc IndexError)
  /\ (forall h : ResponseHandler,
        select_handler content = Ok h ->
        exists (c : ascii) (rest : string),
          content = String c rest
          /\ (ResponseTypes.value (type_ h) = String c ""
              \/ (h = InvalidResponseHandler
                  /\ forall x : ResponseTypes.t, String c "" <> ResponseTypes.value x)))
  /\ (forall (c : ascii) (rest1 rest2 : string),
        select_handler (String c rest1) = select_handler (String c rest2)).
Proof.
  split; [| split; [| split]].
  - destruct content as [| c rest]; [split; reflexivity |].
    rewrite select_handler_cons.
    split; [| discriminate].
    repeat (destruct (Ascii.eqb c _); [discriminate |]). discriminate.
  - intros e. destruct content as [| c rest]; [cbn; intros [= <-]; reflexivity |].
    rewrite select_handler_cons.
    repeat (destruct (Ascii.eqb c _); [discriminate |]). discriminate.
  - intros h. destruct content as [| c rest]; [cbn; discriminate |].
    rewrite select_handler_cons. intros Hsel. exists c, rest. split; [reflexivity |].
    destruct (Ascii.eqb_spec c "Q") as [-> | HQ]; [injection Hsel as <-; left; reflexivity |].
    destruct (Ascii.eqb_spec c "M") as [-> | HM]; [injection Hsel as <-; left; reflexivity |].
    destruct (Ascii.eqb_spec c "F") as [-> | HF]; [injection Hsel as <-; left; reflexivity |].
    injection Hsel as <-.
    destruct (Ascii.eqb_spec c "I") as [-> | HI]; [left; reflexivity |].
    right. split; [reflexivity |]. intros []; cbn; congruence.
  - intros c rest1 rest2. rewrite !select_handler_cons. reflexivity.
Qed.

(** ** The auxiliary text *)

Lemma str_join_empty_app (parts1 parts2 : list string) :
  str_join_empty (parts1 ++ parts2)
    = str_join_empty parts1 +:+ str_join_empty parts2.
Proof.
  induction parts1 as [| g parts1 IH]; [reflexivity |].
  change (g +:+ str_join_empty (parts1 ++ parts2)
          = (g +:+ str_join_empty parts1) +:+ str_join_empty parts2).
  rewrite IH. clear IH.
  induction g as [| c g IHg]; [reflexivity |].
  change (String c (g +:+ (str_join_empty parts1 +:+ str_join_empty parts2))
          = String c ((g +:+ str_join_empty parts1) +:+ str_join_empty parts2)).
  rewrite IHg. reflexivity.
Qed.

(** X5: the auxiliary text of line 247 is made of the characters of
    the classification output from index 3 on, with or without the
    length guard; it has 3 characters less than the output (none when
    the output has at most 3), and the first 3 characters of the
    output followed by it give the output back.  Characters are code
    points, as Python counts them, not bytes. *)
Theorem X5_additional_info_is_the_suffix (content : string) :
  additional_info_of content = str_join_empty (drop 3 (characters content))
  /\ characters (additional_info_of content) = drop 3 (characters content)
  /\ py_len (additional_info_of content) = py_len content - 3
  /\ str_join_empty (take 3 (characters content)) +:+ additional_info_of content
       = content.
Proof.
  split; [apply additional_info_of_slice |].
  split; [apply additional_info_of_characters |].
  split.
  - unfold py_len. rewrite additional_info_of_characters. apply length_drop.
  - rewrite additional_info_of_slice. unfold py_slice_from.
    rewrite <- str_join_empty_app, take_drop. apply characters_join.
Qed.

(** ** Session identifiers of any length *)




(** ** The exact effect of a call and of a turn *)

Lemma replay_from_app (llm : list event -> list message -> string -> string)
    (tr1 tr2 : list event) :
  forall seen : list event,
    replay_from llm seen (tr1 ++ tr2)
      = (replay_from llm seen tr1 ++ replay_from llm (seen ++ tr1) tr2)%list.
Proof.
  induction tr1 as [| ev tr1 IH]; intros seen; cbn [replay_from app].
  - rewrite app_nil_r. reflexivity.
  - rewrite IH, <- !app_assoc. reflexivity.
Qed.

Lemma replay_snoc (llm : list event -> list message -> string -> string)
    (tr : list event) (ev : event) :
  replay llm (tr ++ [ev]) = (replay llm tr ++ exchange llm tr ev)%list.
Proof.
  unfold replay. rewrite replay_from_app. cbn [replay_from app].
  rewrite app_nil_r. reflexivity.
Qed.

Lemma llm_calls_cons (ev : event) (tr : list event) :
  llm_calls (ev :: tr) = (if is_LlmCall ev then 1 else 0) + llm_calls tr.
Proof.
  unfold llm_calls. destruct (is_LlmCall ev) eqn:Hev.
  - rewrite filter_cons_True by (rewrite Hev; exact I). reflexivity.
  - rewrite filter_cons_False by (rewrite Hev; intros []). reflexivity.
Qed.

Lemma replay_length (llm : list event -> list message -> string -> string)
    (tr : list event) :
  forall seen : list event,
    length (replay_from llm seen tr) = 2 * llm_calls tr.
Proof.
  induction tr as [| ev tr IH]; intros seen; [reflexivity |].
  cbn [replay_from]. rewrite length_app, IH, llm_calls_cons.
  destruct ev; cbn; lia.
Qed.

Section ExactFacts.

Variable model : string.
Variable llm : list event -> list message -> string -> string.
Variable cypher_chain : list event -> string -> result pydict.

(** The state a history-aware call leaves: the session bound to its
    object (a new one when it was not bound), the question and the
    completion appended to that object, the call logged. *)
Lemma chain_invoke_exact (session_id question : string) (σ : interp) :
  chain_with_history_invoke llm session_id question σ =
    let history := session_messages σ session_id in
    let content := llm (trace σ) history question in
    let l := match session_store σ !! session_id with
             | Some l => l
             | None => fresh (dom (heap σ))
             end in
    (Ok content,
     {| session_store :=
          match session_store σ !! session_id with
          | Some _ => session_store σ
          | None => <[session_id := l]> (session_store σ)
          end;
        heap :=
          alter (fun ms => (ms ++ [Message ai content])%list) l
            (alter (fun ms => (ms ++ [Message human question])%list) l
               match session_store σ !! session_id with
               | Some _ => heap σ
               | None => <[l := []]> (heap σ)
               end);
        trace := (trace σ ++ [LlmCall session_id history question])%list |}).
Proof.
  unfold chain_with_history_invoke, session_messages, bind.
  destruct (session_store σ !! session_id) as [l |] eqn:Hl.
  - rewrite (get_session_history_present _ _ _ Hl). reflexivity.
  - rewrite (get_session_history_absent _ _ Hl). cbn.
    unfold messages_of. cbn. rewrite lookup_insert_eq. reflexivity.
Qed.

(** A turn in terms of its two calls and of the context resolution. *)
Lemma turn_exact (session_id user_query : string) (σ : interp) :
  turn model llm cypher_chain session_id user_query σ =
    let classify := "Classify query:" +:+ user_query in
    let content := llm (trace σ) (session_messages σ session_id) classify in
    let σ1 := snd (chain_with_history_invoke llm session_id classify σ) in
    match select_handler content with
    | Raise e => (Raise e, σ1)
    | Ok h =>
        match resolve_context cypher_chain h content user_query σ1 with
        | (Raise e, σ2) => (Raise e, σ2)
        | (Ok context, σ2) =>
            let question := context +:+ answer_instruction +:+ user_query in
            (Ok tt,
             logged (snd (chain_with_history_invoke llm session_id question σ2))
               (ConsolePrint
                  (assistant_name model +:+ ":" +:+
                     llm (trace σ2) (session_messages σ2 session_id) question)))
        end
    end.
Proof.
  cbv zeta. unfold turn. unfold bind at 1.
  rewrite (chain_invoke_exact session_id ("Classify query:" +:+ user_query) σ).
  cbv zeta. cbn [snd]. unfold bind at 1. unfold lift at 1.
  destruct (select_handler _) as [h | e]; [| reflexivity].
  unfold bind at 1.
  destruct (resolve_context cypher_chain h _ user_query _) as [[context | e] σ2];
    [| reflexivity].
  unfold bind.
  rewrite (chain_invoke_exact session_id (context +:+ answer_instruction +:+ user_query) σ2).
  reflexivity.
Qed.

End ExactFacts.

(** ** How a turn ends and what it calls *)

Lemma llm_calls_snoc (tr : list event) (ev : event) :
  llm_calls (tr ++ [ev]) = llm_calls tr + (if is_LlmCall ev then 1 else 0).
Proof.
  rewrite llm_calls_app, llm_calls_cons. unfold llm_calls at 2. cbn. lia.
Qed.

Lemma backend_questions_snoc (tr : list event) (ev : event) :
  backend_questions (tr ++ [ev])
    = (backend_questions tr
         ++ match ev with BackendCall q => [q] | _ => [] end)%list.
Proof.
  unfold backend_questions. rewrite omap_app. destruct ev; reflexivity.
Qed.

Section TurnOutcome.

Variable model : string.
Variable llm : list event -> list message -> string -> string.
Variable cypher_chain : list event -> string -> result pydict.

Lemma chain_invoke_trace (session_id question : string) (σ : interp) :
  trace (snd (chain_with_history_invoke llm session_id question σ))
    = (trace σ ++ [LlmCall session_id (session_messages σ session_id) question])%list.
Proof. rewrite chain_invoke_exact. reflexivity. Qed.

(** The result of a turn, the number of model calls it makes and the
    questions it sends to the backend, all by the classification output
    and by the backend's answer. *)
Lemma turn_summary (session_id user_query : string) (σ : interp) :
  let history := session_messages σ session_id in
  let classify := "Classify query:" +:+ user_query in
  let content := llm (trace σ) history classify in
  let question := additional_info_of content +:+ " " +:+ user_query in
  let answer :=
    cypher_chain (trace σ ++ [LlmCall session_id history classify])%list question in
  let run := turn model llm cypher_chain session_id user_query σ in
  fst run =
    match select_handler content with
    | Raise e => Raise e
    | Ok QueryResponseHandler =>
        match answer with
        | Ok d =>
            match d !! "result" with
            | Some _ => Ok tt
            | None => Raise (Exc KeyError)
            end
        | Raise (Exc _) => Ok tt
        | Raise KeyboardInterrupt => Raise KeyboardInterrupt
        end
    | Ok _ => Ok tt
    end
  /\ llm_calls (trace (snd run))
       = llm_calls (trace σ) + match fst run with Ok _ => 2 | Raise _ => 1 end
  /\ backend_questions (trace (snd run))
       = (backend_questions (trace σ)
            ++ match select_handler content with
               | Ok QueryResponseHandler => [question]
               | _ => []
               end)%list.
Proof.
  cbv zeta. rewrite turn_exact. cbv zeta.
  destruct (select_handler _) as [h | e] eqn:Hsel.
  2:{ cbn [fst snd]. rewrite chain_invoke_trace, llm_calls_snoc, backend_questions_snoc.
      cbn. rewrite app_nil_r. auto. }
  assert (Hcases : h = QueryResponseHandler \/ h <> QueryResponseHandler)
    by (destruct h; auto; right; discriminate).
  destruct Hcases as [-> | Hh].
  - rewrite resolve_context_query. cbv zeta. rewrite chain_invoke_trace.
    destruct (cypher_chain _ _) as [d | [e |]]; [destruct (d !! "result") as [r |] | |];
      repeat (rewrite chain_invoke_trace || cbn [fst snd logged trace]);
      rewrite !llm_calls_snoc, !backend_questions_snoc; cbn;
      rewrite ?app_nil_r; (split; [reflexivity |]); (split; [lia | reflexivity]).
  - rewrite (resolve_context_other cypher_chain h _ user_query _ Hh).
    assert (Hctx : exists context, get_context h [] = Ok context)
      by (destruct h; try contradiction; eexists; reflexivity).
    destruct Hctx as (context & ->).
    repeat (rewrite chain_invoke_trace || cbn [fst snd logged trace]).
    rewrite !llm_calls_snoc, !backend_questions_snoc. cbn.
    rewrite ?app_nil_r.
    split; [destruct h; try contradiction; reflexivity |].
    split; [lia | destruct h; try contradiction; rewrite ?app_nil_r; reflexivity].
Qed.

End TurnOutcome.

(** ** What a run keeps true *)

Lemma snoc_eq_call_split (tr tr0 tr1 : list event) (ev call : event) :
  (tr ++ [ev])%list = (tr0 ++ call :: tr1)%list ->
  (tr1 = [] /\ tr0 = tr /\ call = ev)
  \/ (exists tr1' : list event,
        tr1 = (tr1' ++ [ev])%list /\ tr = (tr0 ++ call :: tr1')%list).
Proof.
  destruct tr1 as [| x tr1' _] using rev_ind; intros Heq.
  - left. change (tr0 ++ [call])%list with (tr0 ++ [call])%list in Heq.
    apply app_inj_tail in Heq as [-> ->]. auto.
  - right. exists tr1'.
    change (tr0 ++ call :: tr1' ++ [x])%list
      with (tr0 ++ (call :: tr1') ++ [x])%list in Heq.
    rewrite app_assoc in Heq.
    apply app_inj_tail in Heq as [-> ->]. auto.
Qed.

Section RunInvariant.

Variable model : string.
Variable llm : list event -> list message -> string -> string.
Variable cypher_chain : list event -> string -> result pydict.
Variable session_id : string.

Lemma calls_ok_snoc_other (tr : list event) (ev : event) :
  calls_ok llm session_id tr ->
  is_LlmCall ev = false ->
  calls_ok llm session_id (tr ++ [ev]).
Proof.
  intros Hok Hev tr0 tr1 s history question Heq.
  apply snoc_eq_call_split in Heq as [(_ & _ & <-) | (tr1' & _ & ->)].
  - discriminate Hev.
  - eapply Hok. reflexivity.
Qed.

Lemma calls_ok_snoc_call (tr : list event) (question : string) :
  calls_ok llm session_id tr ->
  calls_ok llm session_id (tr ++ [LlmCall session_id (replay llm tr) question]).
Proof.
  intros Hok tr0 tr1 s history question' Heq.
  apply snoc_eq_call_split in Heq as [(_ & -> & [= -> -> ->]) | (tr1' & _ & ->)].
  - auto.
  - eapply Hok. reflexivity.
Qed.

Lemma session_messages_replay (σ : interp) :
  single_session llm session_id σ ->
  session_messages σ session_id = replay llm (trace σ).
Proof.
  unfold session_messages, messages_of.
  intros [(Hs & _ & Hr) | (l & Hs & Hh)]; rewrite Hs.
  - rewrite lookup_empty, Hr. reflexivity.
  - rewrite lookup_singleton_eq, Hh, lookup_singleton_eq. reflexivity.
Qed.

Lemma run_inv_logged (σ : interp) (ev : event) :
  run_inv llm session_id σ ->
  is_LlmCall ev = false ->
  is_file_event ev = false ->
  run_inv llm session_id (logged σ ev).
Proof.
  intros (Hsingle & Hcalls & Hfiles) Hev Hfile.
  assert (Hreplay : replay llm (trace σ ++ [ev]) = replay llm (trace σ)).
  { rewrite replay_snoc. destruct ev; try discriminate Hev; apply app_nil_r. }
  split; [| split].
  - destruct Hsingle as [(Hs & Hh & Hr) | (l & Hs & Hh)]; [left | right; exists l];
      cbn [logged session_store heap trace]; rewrite Hreplay; auto.
  - apply calls_ok_snoc_other; assumption.
  - cbn [logged trace]. apply Forall_app. split; [exact Hfiles |].
    constructor; [exact Hfile | constructor].
Qed.

(** After a history-aware call the session is bound to its one
    object, which holds the old history followed by the question and
    the completion. *)
Lemma run_inv_chain (question : string) (σ : interp) :
  run_inv llm session_id σ ->
  run_inv llm session_id (snd (chain_with_history_invoke llm session_id question σ))
  /\ is_Some (session_store
                (snd (chain_with_history_invoke llm session_id question σ))
              !! session_id).
Proof.
  intros (Hsingle & Hcalls & Hfiles).
  pose proof (session_messages_replay σ Hsingle) as Hhist.
  rewrite chain_invoke_exact. cbv zeta. cbn [snd]. rewrite Hhist.
  assert (Hreplay :
    replay llm (trace σ ++ [LlmCall session_id (replay llm (trace σ)) question])
      = ((replay llm (trace σ) ++ [Message human question])
           ++ [Message ai (llm (trace σ) (replay llm (trace σ)) question)])%list).
  { rewrite replay_snoc. cbn [exchange]. rewrite <- app_assoc. reflexivity. }
  split; [split; [| split] |].
  - right. cbn [session_store heap trace]. rewrite Hreplay.
    destruct Hsingle as [(Hs & Hh & Hr) | (l & Hs & Hh)]; rewrite Hs.
    + rewrite lookup_empty, Hh. exists (fresh (dom (∅ : gmap loc (list message)))).
      rewrite !insert_empty, !alter_singleton_eq, Hr. auto.
    + rewrite lookup_singleton_eq, Hh. exists l.
      rewrite !alter_singleton_eq. auto.
  - cbn [trace]. apply calls_ok_snoc_call. exact Hcalls.
  - cbn [trace]. apply Forall_app. split; [exact Hfiles |]. repeat constructor.
  - cbn [session_store].
    destruct (session_store σ !! session_id) as [l |] eqn:Hl; [rewrite Hl; eauto |].
    rewrite lookup_insert_eq. eauto.
Qed.

Lemma run_inv_resolve (h : ResponseHandler) (content user_query : string) (σ : interp) :
  run_inv llm session_id σ ->
  run_inv llm session_id (snd (resolve_context cypher_chain h content user_query σ))
  /\ session_store (snd (resolve_context cypher_chain h content user_query σ))
       = session_store σ.
Proof.
  intros Hinv.
  assert (Hcases : h = QueryResponseHandler \/ h <> QueryResponseHandler)
    by (destruct h; auto; right; discriminate).
  destruct Hcases as [-> | Hh].
  - rewrite resolve_context_query. cbv zeta. cbn [snd].
    split; [apply run_inv_logged; auto | reflexivity].
  - rewrite (resolve_context_other cypher_chain h content user_query σ Hh). auto.
Qed.

Lemma run_inv_turn (user_query : string) (σ : interp) :
  run_inv llm session_id σ ->
  run_inv llm session_id (snd (turn model llm cypher_chain session_id user_query σ))
  /\ is_Some (session_store
                (snd (turn model llm cypher_chain session_id user_query σ))
              !! session_id).
Proof.
  intros Hinv. rewrite turn_exact. cbv zeta.
  destruct (run_inv_chain ("Classify query:" +:+ user_query) σ Hinv) as [Hinv1 Hs1].
  destruct (select_handler _) as [h | e]; [| auto].
  destruct (run_inv_resolve h
              (llm (trace σ) (session_messages σ session_id)
                 ("Classify query:" +:+ user_query))
              user_query _ Hinv1) as [Hinv2 Hs2].
  destruct (resolve_context cypher_chain h _ user_query _) as [[context | e] σ2];
    cbn [snd] in *.
  - destruct (run_inv_chain (context +:+ answer_instruction +:+ user_query) σ2 Hinv2)
      as [Hinv3 Hs3].
    split; [apply run_inv_logged; auto | exact Hs3].
  - split; [exact Hinv2 | rewrite Hs2; exact Hs1].
Qed.

Lemma run_inv_main_loop (inputs : list console_input) :
  forall σ : interp,
    run_inv llm session_id σ ->
    run_inv llm session_id (snd (main_loop model llm cypher_chain session_id inputs σ)).
Proof.
  induction inputs as [| input rest IH]; intros σ Hinv; [exact Hinv |].
  destruct input as [q |]; [| exact Hinv].
  cbn [main_loop].
  destruct (run_inv_turn q σ Hinv) as [Hinv' _].
  destruct (turn model llm cypher_chain session_id q σ) as [[u | e] σ']; cbn [snd] in *.
  - apply IH. exact Hinv'.
  - exact Hinv'.
Qed.

Lemma run_inv_startup : run_inv llm session_id (startup model).
Proof.
  split; [| split].
  - left. auto.
  - intros tr0 tr1 s history question Heq. cbn in Heq.
    destruct tr0 as [| e0 [| e1 [| e2 tr0]]]; discriminate Heq.
  - cbn. repeat constructor.
Qed.

End RunInvariant.

Lemma select_handler_raises (content : string) (e : base_exception) :
  select_handler content = Raise e -> e = Exc IndexError.
Proof.
  destruct content as [| c rest]; [cbn; intros [= <-]; reflexivity |].
  rewrite select_handler_cons.
  repeat (destruct (Ascii.eqb c _); [discriminate |]). discriminate.
Qed.

Lemma select_handler_Query_iff (content : string) :
  select_handler content = Ok QueryResponseHandler
  <-> String.get 0 content = Some "Q"%char.
Proof.
  split; [| apply select_handler_first_Q].
  destruct content as [| c rest]; [cbn; discriminate |].
  rewrite select_handler_cons. cbn [String.get].
  destruct (Ascii.eqb_spec c "Q") as [-> | _]; [reflexivity |].
  repeat (destruct (Ascii.eqb c _); [discriminate |]). discriminate.
Qed.

(** X7: a backend answer without a ["result"] entry is not
    recovered.  In a turn classified as Query whose backend call
    returns such a dict, the handler's [get_context], called after the
    [try] of lines 245-250, raises [KeyError]; the turn ends there,
    after the backend call, without a final model call and without
    printing, and the loop is left with that [KeyError], whatever
    input would have followed. *)
Theorem X7_missing_result_raises_KeyError
    (model : string) (llm : list event -> list message -> string -> string)
    (cypher_chain : list event -> string -> result pydict)
    (session_id user_query : string) (rest : list console_input)
    (σ : interp) (d : pydict) :
  let history := session_messages σ session_id in
  let classify := "Classify query:" +:+ user_query in
  let content := llm (trace σ) history classify in
  let question := additional_info_of content +:+ " " +:+ user_query in
  String.get 0 content = Some "Q"%char ->
  cypher_chain (trace σ ++ [LlmCall session_id history classify])%list question
    = Ok d ->
  d !! "result" = None ->
  exists σ' : interp,
    turn model llm cypher_chain session_id user_query σ = (Raise (Exc KeyError), σ')
    /\ trace σ' =
         (trace σ ++ [LlmCall session_id history classify; BackendCall question])%list
    /\ main_loop model llm cypher_chain session_id (Line user_query :: rest) σ
         = (Exc KeyError, σ').
Proof.
  intros history classify content question HQ Hanswer Hmissing.
  destruct (turn_steps model llm cypher_chain session_id user_query σ)
    as (σ1 & Ht1 & _ & Hturn).
  fold history classify content in Ht1, Hturn.
  rewrite (select_handler_first_Q _ HQ) in Hturn.
  rewrite resolve_context_query in Hturn. cbv zeta in Hturn.
  fold question in Hturn. rewrite Ht1, Hanswer, Hmissing in Hturn.
  exists (logged σ1 (BackendCall question)).
  split; [exact Hturn |]. split.
  - cbn [logged trace]. rewrite Ht1, <- app_assoc. reflexivity.
  - cbn [main_loop]. rewrite Hturn. reflexivity.
Qed.

Lemma X7_witness :
  exists σ' : interp,
    turn "gpt-4" (sample_llm "Q  The Matrix") keyless_backend
      "abc123" "who stars in it?" initial_interp = (Raise (Exc KeyError), σ')
    /\ trace σ' =
         [LlmCall "abc123" [] "Classify query:who stars in it?";
          BackendCall "The Matrix who stars in it?"]
    /\ main_loop "gpt-4" (sample_llm "Q  The Matrix") keyless_backend "abc123"
         [Line "who stars in it?"; Line "and who directed it?"] initial_interp
         = (Exc KeyError, σ').
Proof.
  apply (X7_missing_result_raises_KeyError "gpt-4" (sample_llm "Q  The Matrix")
           keyless_backend "abc123" "who stars in it?" [Line "and who directed it?"]
           initial_interp {[ "query" := "The Matrix who stars in it?" ]});
    reflexivity.
Defined.

Lemma first_not_Q_no_question (first : option ascii) (question : string) :
  first <> Some "Q"%char ->
  match first with
  | Some "Q"%char => [question]
  | _ => []
  end = [].
Proof.
  intros Hne. destruct first as [c |]; [| reflexivity].
  destruct c as [[] [] [] [] [] [] [] []]; try reflexivity. contradiction.
Qed.

(** X8: given the classification output, a turn sends a question to
    the backend exactly when that output starts with [Q], and then
    exactly one: the auxiliary text (the output from its fourth
    character on), a space and the user's query; this holds whether the
    turn then completes or raises. *)
Theorem X8_backend_called_once_iff_Query
    (model : string) (llm : list event -> list message -> string -> string)
    (cypher_chain : list event -> string -> result pydict)
    (session_id user_query : string) (σ : interp) :
  let history := session_messages σ session_id in
  let content := llm (trace σ) history ("Classify query:" +:+ user_query) in
  let question := additional_info_of content +:+ " " +:+ user_query in
  let σ' := snd (turn model llm cypher_chain session_id user_query σ) in
  backend_questions (trace σ')
    = (backend_questions (trace σ)
         ++ match String.get 0 content with
            | Some "Q"%char => [question]
            | _ => []
            end)%list
  /\ (String.get 0 content = Some "Q"%char
      <-> length (backend_questions (trace σ'))
          = S (length (backend_questions (trace σ))))
  /\ (String.get 0 content <> Some "Q"%char
      <-> backend_questions (trace σ') = backend_questions (trace σ)).
Proof.
  intros history content question σ'.
  destruct (turn_summary model llm cypher_chain session_id user_query σ)
    as (_ & _ & Hq).
  fold history content question σ' in Hq.
  destruct (select_handler content) as [h | e] eqn:Hsel;
    [destruct h |];
    try (apply select_handler_Query_iff in Hsel; rewrite Hsel, Hq;
         split; [reflexivity |];
         split; [split; [intros _; rewrite length_app; cbn; lia | reflexivity] |];
         split; [intros Hne; contradiction |];
         intros Heq; apply (f_equal length) in Heq; rewrite length_app in Heq;
         cbn in Heq; lia).
  all: assert (Hne : String.get 0 content <> Some "Q"%char)
         by (intros HQ; apply select_handler_Query_iff in HQ; congruence).
  all: rewrite Hq, (first_not_Q_no_question _ question Hne), app_nil_r.
  all: split; [reflexivity |]; split; [split; [contradiction | lia] | tauto].
Qed.

(** ** Whole runs *)

Lemma single_session_logged (llm : list event -> list message -> string -> string)
    (session_id : string) (σ : interp) (ev : event) :
  single_session llm session_id σ ->
  is_LlmCall ev = false ->
  single_session llm session_id (logged σ ev).
Proof.
  intros Hsingle Hev.
  assert (Hreplay : replay llm (trace σ ++ [ev]) = replay llm (trace σ)).
  { rewrite replay_snoc. destruct ev; try discriminate Hev; apply app_nil_r. }
  destruct Hsingle as [(Hs & Hh & Hr) | (l & Hs & Hh)]; [left | right; exists l];
    cbn [logged session_store heap trace]; rewrite Hreplay; auto.
Qed.

(** The state in which [main] ends, by the way its loop ended. *)
Lemma main_run (model : string) (llm : list event -> list message -> string -> string)
    (cypher_chain : list event -> string -> result pydict)
    (dump_memory_on_exit : bool) (rnd : nat -> draw) (inputs : list console_input)
    (session_id : string) :
  generate_session_id 6 rnd = Ok session_id ->
  main model llm cypher_chain dump_memory_on_exit rnd inputs =
    let loop := main_loop model llm cypher_chain session_id inputs (startup model) in
    match fst loop with
    | Exc e => (Uncaught (Exc e), snd loop)
    | KeyboardInterrupt =>
        let σ1 := logged (snd loop) (ConsolePrint outro_text) in
        if dump_memory_on_exit then
          let σ2 := logged σ1 (FileOpen (dump_file_name session_id)) in
          match session_store (snd loop) !! session_id with
          | Some l =>
              (Returned,
               logged σ2 (FileDump (dump_file_name session_id)
                            (messages_of (snd loop) l)))
          | None => (Uncaught (Exc KeyError), σ2)
          end
        else (Returned, σ1)
    end.
Proof.
  intros Hsid. unfold main. rewrite Hsid. cbv zeta.
  destruct (main_loop model llm cypher_chain session_id inputs (startup model))
    as [[e |] σ]; cbn [fst snd is_KeyboardInterrupt]; [reflexivity |].
  rewrite on_interrupt_run. cbv zeta.
  destruct dump_memory_on_exit; [| reflexivity].
  destruct (session_store σ !! session_id); reflexivity.
Qed.

(** X10: from the generation of the session id on (lines 212-278),
    [main] opens a file for writing only in the interrupt handler and
    only with [--dump-memory-on-exit].  The loop itself never opens or
    writes one; when the loop is left by an [Exception], [main] ends
    with that exception uncaught and nothing more is done; without the
    flag an interrupt only prints the farewell and [main] returns.
    (The set-up before line 212, which reads [prompts/system.md], is
    outside the model of [main].) *)
Theorem X10_files_only_on_interrupt_with_flag
    (model : string) (llm : list event -> list message -> string -> string)
    (cypher_chain : list event -> string -> result pydict)
    (dump_memory_on_exit : bool) (rnd : nat -> draw) (inputs : list console_input) :
  exists session_id : string,
    generate_session_id 6 rnd = Ok session_id
    /\ let loop := main_loop model llm cypher_chain session_id inputs (startup model) in
       let run := main model llm cypher_chain dump_memory_on_exit rnd inputs in
       Forall (fun ev => is_file_event ev = false) (trace (snd loop))
       /\ (forall e : exception,
             fst loop = Exc e -> run = (Uncaught (Exc e), snd loop))
       /\ (dump_memory_on_exit = false ->
           fst loop = KeyboardInterrupt ->
           run = (Returned, logged (snd loop) (ConsolePrint outro_text)))
       /\ (dump_memory_on_exit = false \/ fst loop <> KeyboardInterrupt ->
           Forall (fun ev => is_file_event ev = false) (trace (snd run))).
Proof.
  destruct (generate_session_id_6 rnd) as (sid & Hsid & _).
  exists sid. split; [exact Hsid |]. cbv zeta.
  rewrite (main_run model llm cypher_chain dump_memory_on_exit rnd inputs sid Hsid).
  cbv zeta.
  destruct (run_inv_main_loop model llm cypher_chain sid inputs (startup model)
              (run_inv_startup model llm sid)) as (_ & _ & Hfiles).
  destruct (main_loop model llm cypher_chain sid inputs (startup model)) as [e σ].
  cbn [fst snd] in *.
  split; [exact Hfiles |].
  split; [intros e' ->; reflexivity |].
  split; [intros -> ->; reflexivity |].
  intros [-> | Hne].
  - destruct e as [e |]; cbn [snd logged trace]; [exact Hfiles |].
    apply Forall_app. split; [exact Hfiles | repeat constructor].
  - destruct e as [e |]; [exact Hfiles | contradiction].
Qed.

(** X11: every model call of a run is given as history exactly what
    the earlier model calls of the run produced: for each of them, in
    order, its question as a human message and then its completion as
    an ai message; so the history of a call has twice as many messages
    as there were calls before it. *)
Theorem X11_model_calls_see_whole_history
    (model : string) (llm : list event -> list message -> string -> string)
    (cypher_chain : list event -> string -> result pydict)
    (dump_memory_on_exit : bool) (rnd : nat -> draw) (inputs : list console_input)
    (tr0 tr1 : list event) (s : string) (history : list message) (question : string) :
  trace (snd (main model llm cypher_chain dump_memory_on_exit rnd inputs))
    = (tr0 ++ LlmCall s history question :: tr1)%list ->
  history = replay llm tr0
  /\ length history = 2 * llm_calls tr0.
Proof.
  intros Heq.
  destruct (generate_session_id_6 rnd) as (sid & Hsid & _).
  assert (Hcalls : calls_ok llm sid
            (trace (snd (main model llm cypher_chain dump_memory_on_exit rnd inputs)))).
  { rewrite (main_run model llm cypher_chain dump_memory_on_exit rnd inputs sid Hsid).
    cbv zeta.
    destruct (run_inv_main_loop model llm cypher_chain sid inputs (startup model)
                (run_inv_startup model llm sid)) as (_ & Hok & _).
    destruct (main_loop model llm cypher_chain sid inputs (startup model)) as [e σ].
    cbn [fst snd] in *.
    destruct e as [e |]; [exact Hok |].
    destruct dump_memory_on_exit;
      [destruct (session_store σ !! sid) |];
      cbn [snd logged trace];
      repeat (apply calls_ok_snoc_other; [| reflexivity]); exact Hok. }
  destruct (Hcalls tr0 tr1 s history question Heq) as [_ ->].
  split; [reflexivity |]. apply replay_length.
Qed.

Lemma X11_witness :
  [Message human "Classify query:hi"; Message ai "M"]
    = replay (sample_llm "M")
        [ConsolePrint (greeting "gpt-4"); ConsolePrint feedback_hint;
         LlmCall "pppppp" [] "Classify query:hi"]
  /\ length [Message human "Classify query:hi"; Message ai "M"]
     = 2 * llm_calls
             [ConsolePrint (greeting "gpt-4"); ConsolePrint feedback_hint;
              LlmCall "pppppp" [] "Classify query:hi"].
Proof.
  apply (X11_model_calls_see_whole_history "gpt-4" (sample_llm "M")
           answering_backend false (fun _ => Draw 1 2) [Line "hi"; CtrlC]
           [ConsolePrint (greeting "gpt-4"); ConsolePrint feedback_hint;
            LlmCall "pppppp" [] "Classify query:hi"]
           [ConsolePrint "Assistant(gpt-4):answer"; ConsolePrint outro_text]
           "pppppp"
           [Message human "Classify query:hi"; Message ai "M"]
           ("Context: respond using memory history." +:+ answer_instruction +:+ "hi")).
  vm_compute. reflexivity.
Defined.

(** X12: a run keeps one session.  When [main] ends, the store is
    either empty, with no history object at all, or holds the run's
    session id alone, bound to the only history object there is; and
    that object holds the questions and completions of all the model
    calls of the run, in order. *)
Theorem X12_run_keeps_one_session
    (model : string) (llm : list event -> list message -> string -> string)
    (cypher_chain : list event -> string -> result pydict)
    (dump_memory_on_exit : bool) (rnd : nat -> draw) (inputs : list console_input) :
  exists session_id : string,
    generate_session_id 6 rnd = Ok session_id
    /\ let σ := snd (main model llm cypher_chain dump_memory_on_exit rnd inputs) in
       ((session_store σ = ∅ /\ heap σ = ∅ /\ llm_calls (trace σ) = 0)
        \/ (exists l : loc,
              session_store σ = {[ session_id := l ]}
              /\ heap σ = {[ l := replay llm (trace σ) ]}
              /\ 0 < llm_calls (trace σ)))
       /\ size (session_store σ) <= 1
       /\ size (heap σ) = size (session_store σ).
Proof.
  destruct (generate_session_id_6 rnd) as (sid & Hsid & _).
  exists sid. split; [exact Hsid |]. cbv zeta.
  assert (Hsingle : single_session llm sid
            (snd (main model llm cypher_chain dump_memory_on_exit rnd inputs))).
  { rewrite (main_run model llm cypher_chain dump_memory_on_exit rnd inputs sid Hsid).
    cbv zeta.
    destruct (run_inv_main_loop model llm cypher_chain sid inputs (startup model)
                (run_inv_startup model llm sid)) as (Hok & _ & _).
    destruct (main_loop model llm cypher_chain sid inputs (startup model)) as [e σ].
    cbn [fst snd] in *.
    destruct e as [e |]; [exact Hok |].
    destruct dump_memory_on_exit;
      [destruct (session_store σ !! sid) |];
      cbn [snd];
      repeat (apply single_session_logged; [| reflexivity]); exact Hok. }
  set (σ := snd (main model llm cypher_chain dump_memory_on_exit rnd inputs)) in *.
  pose proof (replay_length llm (trace σ) []) as Hlen. fold (replay llm (trace σ)) in Hlen.
  destruct Hsingle as [(Hs & Hh & Hr) | (l & Hs & Hh)].
  - rewrite Hr in Hlen. cbn in Hlen.
    split; [left; split; [exact Hs |]; split; [exact Hh | lia] |].
    rewrite Hs, Hh, !map_size_empty. lia.
  - assert (Hpos : 0 < llm_calls (trace σ)).
    { destruct (llm_calls (trace σ)) eqn:Hn; [| lia]. exfalso.
      clear Hlen Hh. revert Hs Hn. subst σ.
      rewrite (main_run model llm cypher_chain dump_memory_on_exit rnd inputs sid Hsid).
      cbv zeta.
      destruct (main_loop_run model llm cypher_chain sid inputs (startup model))
        as (tail & Htr & _ & Hcases).
      destruct (main_loop model llm cypher_chain sid inputs (startup model)) as [e σ0].
      cbn [fst snd] in *.
      assert (Hstore : forall σ' : interp,
                session_store σ' = session_store σ0 ->
                (exists extra, trace σ' = (trace σ0 ++ extra)%list) ->
                session_store σ' = {[ sid := l ]} -> llm_calls (trace σ') = 0 -> False).
      { intros σ' Hsame (extra & Hextra) Hs' Hn'.
        rewrite Hextra, Htr, !llm_calls_app in Hn'.
        destruct Hcases as [(-> & _ & _) | (_ & Hpos & _)]; [| lia].
        rewrite Hsame in Hs'. cbn in Hs'.
        apply (f_equal (fun m => m !! sid)) in Hs'.
        rewrite lookup_empty, lookup_singleton_eq in Hs'. discriminate. }
      destruct e as [e |].
      - apply Hstore; [reflexivity | exists []; rewrite app_nil_r; reflexivity].
      - destruct dump_memory_on_exit; [destruct (session_store σ0 !! sid) |];
          cbn [snd]; (apply Hstore; [reflexivity |]); cbn [logged trace];
          rewrite <- ?app_assoc; eexists; reflexivity. }
    split; [right; exists l; auto |].
    rewrite Hs, Hh, !map_size_singleton. lia.
Qed.

(** X13: what the dump holds.  In a run with
    [--dump-memory-on-exit] that is interrupted after at least one
    model call, [main] returns after printing the farewell, opening
    [memory-<session id>.json] and writing to it the question and the
    completion of every model call of the run, in order, classification
    calls included: two messages for each call. *)
Theorem X13_dump_holds_every_exchange
    (model : string) (llm : list event -> list message -> string -> string)
    (cypher_chain : list event -> string -> result pydict)
    (rnd : nat -> draw) (inputs : list console_input)
    (session_id : string) (σ : interp) :
  generate_session_id 6 rnd = Ok session_id ->
  main_loop model llm cypher_chain session_id inputs (startup model)
    = (KeyboardInterrupt, σ) ->
  0 < llm_calls (trace σ) ->
  let run := main model llm cypher_chain true rnd inputs in
  fst run = Returned
  /\ trace (snd run) =
       (trace σ ++
          [ConsolePrint outro_text;
           FileOpen (dump_file_name session_id);
           FileDump (dump_file_name session_id) (replay llm (trace σ))])%list
  /\ length (replay llm (trace σ)) = 2 * llm_calls (trace σ).
Proof.
  intros Hsid Hloop Hpos run. subst run.
  rewrite (main_run model llm cypher_chain true rnd inputs session_id Hsid).
  cbv zeta.
  pose proof (run_inv_main_loop model llm cypher_chain session_id inputs (startup model)
                (run_inv_startup model llm session_id)) as (Hsingle & _ & _).
  rewrite Hloop in *. cbn [fst snd] in *.
  pose proof (replay_length llm (trace σ) []) as Hlen.
  fold (replay llm (trace σ)) in Hlen.
  destruct Hsingle as [(_ & _ & Hr) | (l & Hs & Hh)].
  - rewrite Hr in Hlen. cbn in Hlen. lia.
  - rewrite Hs, lookup_singleton_eq. cbn [fst snd logged trace].
    unfold messages_of. rewrite Hh, lookup_singleton_eq. cbn [default].
    split; [reflexivity |]. split; [| exact Hlen].
    rewrite <- !app_assoc. reflexivity.
Qed.

Lemma X13_witness :
  let run := main "gpt-4" (sample_llm "M") answering_backend true
               (fun _ => Draw 1 2) [Line "hi"; CtrlC] in
  fst run = Returned
  /\ exists tr : list event,
       trace (snd run) =
         (tr ++
            [ConsolePrint outro_text;
             FileOpen "memory-pppppp.json";
             FileDump "memory-pppppp.json" (replay (sample_llm "M") tr)])%list
       /\ length (replay (sample_llm "M") tr) = 4.
Proof.
  cbv zeta.
  destruct (X13_dump_holds_every_exchange "gpt-4" (sample_llm "M") answering_backend
              (fun _ => Draw 1 2) [Line "hi"; CtrlC] "pppppp"
              (snd (main_loop "gpt-4" (sample_llm "M") answering_backend "pppppp"
                      [Line "hi"; CtrlC] (startup "gpt-4"))))
    as (Hret & Htrace & Hlen).
  - vm_compute. reflexivity.
  - vm_compute. reflexivity.
  - vm_compute. lia.
  - split; [exact Hret |]. eexists. split; [exact Htrace |].
    rewrite Hlen. vm_compute. reflexivity.
Defined.

(** X9: an interrupt that arrives during the backend call of the
    first turn is not taken for a backend failure: no apology is
    produced and no further model call is made; the run goes to the
    interrupt handler, [main] returns, and with
    [--dump-memory-on-exit] the dump holds the classification question
    and its completion, the only exchange made. *)
Theorem X9_interrupt_during_backend_call
    (model : string) (llm : list event -> list message -> string -> string)
    (cypher_chain : list event -> string -> result pydict)
    (dump_memory_on_exit : bool) (rnd : nat -> draw)
    (user_query : string) (rest : list console_input) (session_id : string) :
  let classify := "Classify query:" +:+ user_query in
  let content := llm (trace (startup model)) [] classify in
  let question := additional_info_of content +:+ " " +:+ user_query in
  let run := main model llm cypher_chain dump_memory_on_exit rnd
               (Line user_query :: rest) in
  generate_session_id 6 rnd = Ok session_id ->
  String.get 0 content = Some "Q"%char ->
  cypher_chain (trace (startup model) ++ [LlmCall session_id [] classify])%list question
    = Raise KeyboardInterrupt ->
  fst run = Returned
  /\ trace (snd run) =
       (trace (startup model) ++
          [LlmCall session_id [] classify;
           BackendCall question;
           ConsolePrint outro_text] ++
          if dump_memory_on_exit
          then [FileOpen (dump_file_name session_id);
                FileDump (dump_file_name session_id)
                  [Message human classify; Message ai content]]
          else [])%list.
Proof.
  intros classify content question run Hsid HQ Hraise. subst run.
  rewrite (main_run model llm cypher_chain dump_memory_on_exit rnd
             (Line user_query :: rest) session_id Hsid).
  cbv zeta. cbn [main_loop].
  rewrite turn_exact. cbv zeta.
  rewrite (chain_invoke_exact llm session_id ("Classify query:" +:+ user_query)
             (startup model)).
  cbv zeta. cbn [snd].
  change (session_messages (startup model) session_id) with (@nil message).
  change (session_store (startup model) !! session_id) with (@None loc).
  fold classify. fold content.
  rewrite (select_handler_first_Q _ HQ).
  rewrite resolve_context_query. cbv zeta. cbn [trace]. fold question.
  rewrite Hraise. cbn [fst snd logged session_store trace].
  rewrite lookup_insert_eq.
  destruct dump_memory_on_exit; cbn [fst snd logged trace].
  - unfold messages_of. cbn [logged heap].
    rewrite !lookup_alter_eq, lookup_insert_eq. cbn [fmap option_fmap option_map default app].
    split; [reflexivity |]. rewrite <- !app_assoc. reflexivity.
  - split; [reflexivity |]. rewrite <- !app_assoc. reflexivity.
Qed.

Lemma X9_witness :
  let run := main "gpt-4" (sample_llm "Q  The Matrix") interrupted_backend true
               (fun _ => Draw 1 2) [Line "who stars in it?"] in
  fst run = Returned
  /\ trace (snd run) =
       [ConsolePrint (greeting "gpt-4"); ConsolePrint feedback_hint;
        LlmCall "pppppp" [] "Classify query:who stars in it?";
        BackendCall "The Matrix who stars in it?";
        ConsolePrint outro_text;
        FileOpen "memory-pppppp.json";
        FileDump "memory-pppppp.json"
          [Message human "Classify query:who stars in it?";
           Message ai "Q  The Matrix"]].
Proof.
  apply (X9_interrupt_during_backend_call "gpt-4" (sample_llm "Q  The Matrix")
           interrupted_backend true (fun _ => Draw 1 2) "who stars in it?" []
           "pppppp"); reflexivity.
Defined.

(** ** Several sessions in one store *)

Lemma store_wf_initial : store_wf initial_interp.
Proof.
  split.
  - intros s l Hs. cbn in Hs. rewrite lookup_empty in Hs. discriminate.
  - intros s1 s2 l Hs. cbn in Hs. rewrite lookup_empty in Hs. discriminate.
Qed.

Lemma store_wf_run_op (o : store_op) (σ : interp) :
  store_wf σ -> store_wf (snd (run_op o σ)).
Proof.
  intros [Hbound Hinj]. destruct o as [sid | l m]; cbn [run_op].
  - unfold bind. destruct (session_store σ !! sid) as [l |] eqn:Hsid.
    + rewrite (get_session_history_present _ _ _ Hsid). cbn. split; assumption.
    + rewrite (get_session_history_absent _ _ Hsid). cbn. split; cbn.
      * intros s l Hs. destruct (decide (sid = s)) as [-> | Hne].
        -- rewrite lookup_insert_eq in Hs. injection Hs as <-.
           rewrite lookup_insert_eq. eauto.
        -- rewrite lookup_insert_ne in Hs by assumption.
           apply lookup_insert_is_Some'. right. eapply Hbound. exact Hs.
      * assert (Hfresh : forall s, session_store σ !! s <> Some (fresh (dom (heap σ)))).
        { intros s Hs. destruct (Hbound s _ Hs) as [ms Hms].
          rewrite fresh_loc_unused in Hms. discriminate. }
        intros s1 s2 l Hs1 Hs2.
        destruct (decide (sid = s1)) as [E1 | Hne1];
          destruct (decide (sid = s2)) as [E2 | Hne2].
        -- congruence.
        -- subst s1. rewrite lookup_insert_eq in Hs1. injection Hs1 as <-.
           rewrite lookup_insert_ne in Hs2 by assumption.
           exfalso. apply (Hfresh s2 Hs2).
        -- subst s2. rewrite lookup_insert_eq in Hs2. injection Hs2 as <-.
           rewrite lookup_insert_ne in Hs1 by assumption.
           exfalso. apply (Hfresh s1 Hs1).
        -- rewrite lookup_insert_ne in Hs1, Hs2 by assumption.
           eapply Hinj; eassumption.
  - cbn. split; cbn; [| exact Hinj].
    intros s l' Hs. apply lookup_alter_is_Some. eapply Hbound. exact Hs.
Qed.

Lemma store_wf_run_ops (ops : list store_op) :
  forall σ : interp, store_wf σ -> store_wf (run_ops ops σ).
Proof.
  induction ops as [| o ops IH]; intros σ Hwf; [exact Hwf |].
  cbn [run_ops]. apply IH, store_wf_run_op, Hwf.
Qed.

(** X14: sessions do not share history.  Whatever lookups and appends
    were made since the store was empty, two different session ids
    stand for two different history objects; so appending a message to
    the history of one adds it at the end of that history and leaves
    the history of the other as it was. *)
Theorem X14_sessions_do_not_share_history
    (ops : list store_op) (s1 s2 : string) (l1 l2 : loc) (m : message) :
  let σ := run_ops ops initial_interp in
  session_store σ !! s1 = Some l1 ->
  session_store σ !! s2 = Some l2 ->
  s1 <> s2 ->
  l1 <> l2
  /\ session_messages (snd (add_message l1 m σ)) s1
       = (session_messages σ s1 ++ [m])%list
  /\ session_messages (snd (add_message l1 m σ)) s2 = session_messages σ s2.
Proof.
  intros σ Hs1 Hs2 Hne.
  destruct (store_wf_run_ops ops initial_interp store_wf_initial) as [Hbound Hinj].
  fold σ in Hbound, Hinj.
  assert (Hl : l1 <> l2).
  { intros ->. apply Hne. eapply Hinj; eassumption. }
  split; [exact Hl |].
  unfold session_messages, messages_of. cbn. rewrite Hs1, Hs2.
  destruct (Hbound s1 l1 Hs1) as [ms Hms].
  rewrite lookup_alter_eq, Hms. cbn.
  rewrite lookup_alter_ne by exact Hl. auto.
Qed.

Lemma X14_witness :
  let σ := run_ops [OpGet "alice"; OpAppend 1%positive (Message human "hello");
                    OpGet "bob"] initial_interp in
  session_messages (snd (add_message 1%positive (Message ai "hi") σ)) "alice"
    = [Message human "hello"; Message ai "hi"]
  /\ session_messages (snd (add_message 1%positive (Message ai "hi") σ)) "bob" = [].
Proof.
  cbv zeta.
  destruct (X14_sessions_do_not_share_history
              [OpGet "alice"; OpAppend 1%positive (Message human "hello"); OpGet "bob"]
              "alice" "bob" 1%positive 2%positive (Message ai "hi"))
    as (_ & Ha & Hb).
  - vm_compute. reflexivity.
  - vm_compute. reflexivity.
  - discriminate.
  - split; [rewrite Ha | rewrite Hb]; vm_compute; reflexivity.
Defined.

(** X15: a lookup in the session store never raises, whatever the
    state: it returns the object the id is bound to afterwards, prints
    and calls nothing, keeps every binding and every history object
    that existed, and changes nothing at all when the id was bound. *)
Theorem X15_get_session_history_never_raises (session_id : string) (σ : interp) :
  exists (l : loc) (σ' : interp),
    get_session_history session_id σ = (Ok l, σ')
    /\ session_store σ' !! session_id = Some l
    /\ trace σ' = trace σ
    /\ (forall (s : string) (l' : loc),
          session_store σ !! s = Some l' -> session_store σ' !! s = Some l')
    /\ (forall (l' : loc) (ms : list message),
          heap σ !! l' = Some ms -> heap σ' !! l' = Some ms)
    /\ (is_Some (session_store σ !! session_id) -> σ' = σ)
    /\ (session_store σ !! session_id = None ->
        heap σ !! l = None /\ heap σ' !! l = Some []).
Proof.
  destruct (session_store σ !! session_id) as [l |] eqn:Hl.
  - exists l, σ. rewrite (get_session_history_present _ _ _ Hl).
    repeat split; auto; discriminate.
  - rewrite (get_session_history_absent _ _ Hl). eexists _, _.
    split; [reflexivity |]. cbn [session_store heap trace].
    split; [apply lookup_insert_eq |]. split; [reflexivity |].
    split.
    { intros s l' Hs. rewrite lookup_insert_ne; [exact Hs |].
      intros ->. congruence. }
    split.
    { intros l' ms Hms. rewrite lookup_insert_ne; [exact Hms |].
      intros Heq. pose proof (fresh_loc_unused σ) as Hf. rewrite Heq in Hf.
      congruence. }
    split; [intros [? ?]; discriminate |].
    intros _. split; [apply fresh_loc_unused | apply lookup_insert_eq].
Qed.
